(** * traductor_cron: the cron-to-Spanish translator, embedded and verified

    Source: [traductor_cron/traductor_cron.py], class [CronTranslator].

    The file has three parts:
    - [Py]: the Python built-ins the translator calls ([str.split], [str.join],
      [in], [int], [str], list indexing, sequence unpacking, [try]/[except]),
      written out with the behaviour CPython gives them;
    - [CronTranslator]: the class, one definition per method
      ([_validate_cron_expression], [_parse_field], [translate],
      [get_next_executions]), with the external [croniter] package taken as a
      parameter;
    - the properties of the translator, first for every input, then at
      concrete ones.

    Strings.  A Python [str] is a sequence of code points.  It is modelled by
    [string] with one [ascii] per code point, which covers the code points
    below U+0100 (ASCII and Latin-1); every literal of the source lies in that
    range.  Strings holding a code point from U+0100 on are outside the
    model.  Literals of this file are written in UTF-8 and read through [py],
    which turns each two-byte sequence into its code point. *)

From Stdlib Require Import String Ascii List ZArith Lia Bool DecimalString.
Import ListNotations.

Local Open Scope string_scope.
Local Open Scope Z_scope.

Module Py.

(** ** Exceptions and results *)

(** What a [ValueError] carries.  The built-in messages are kept as
    structured data instead of text. *)
Inductive value_error : Type :=
| int_conversion (s : string)
    (* int(s) refused s: not a decimal literal, or too many digits *)
| unpack_too_many (expected : nat)
    (* too many values to unpack (expected n) *)
| unpack_not_enough (expected got : nat)
    (* not enough values to unpack (expected n, got k) *)
| message (msg : string).
    (* raise ValueError(msg) *)

(** A constructor stands for the class and its subclasses; every one of them
    derives from [Exception]. *)
Inductive exception : Type :=
| ValueError (why : value_error)
| TypeError
| IndexError
| OtherException (cls : string).

Inductive result (A : Type) : Type :=
| Ok (a : A)
| Raise (e : exception).

Arguments Ok {A} a.
Arguments Raise {A} e.

Definition bind {A B : Type} (m : result A) (k : A -> result B) : result B :=
  match m with
  | Ok a => k a
  | Raise e => Raise e
  end.

(** [try: body except <classes>: handler], [catches] telling which exceptions
    the clause names. *)
Definition try_except {A : Type} (body : result A)
    (catches : exception -> bool) (handler : exception -> result A) : result A :=
  match body with
  | Ok a => Ok a
  | Raise e => if catches e then handler e else Raise e
  end.

Definition is_ValueError (e : exception) : bool :=
  match e with ValueError _ => true | _ => false end.

Definition is_TypeError (e : exception) : bool :=
  match e with TypeError => true | _ => false end.

(** [except Exception]: all modelled classes derive from it. *)
Definition is_Exception (e : exception) : bool := true.

(** ** Strings *)

(** A literal written in UTF-8, as the [str] of its code points (below
    U+0100: the lead bytes 0xC2 and 0xC3). *)
Fixpoint py (s : string) : string :=
  match s with
  | EmptyString => EmptyString
  | String c tl =>
      match tl with
      | String d rest =>
          if Ascii.eqb c "194" then String d (py rest)
          else if Ascii.eqb c "195"
               then String (ascii_of_nat (nat_of_ascii d + 64)) (py rest)
               else String c (py tl)
      | EmptyString => String c EmptyString
      end
  end.

(** [c in s] for a one-character string [c]. *)
Fixpoint contains (c : ascii) (s : string) : bool :=
  match s with
  | EmptyString => false
  | String d tl => Ascii.eqb d c || contains c tl
  end.

(** [s.split(sep)] for a one-character separator: never empty, one more
    piece than there are separators. *)
Fixpoint split (sep : ascii) (s : string) : list string :=
  match s with
  | EmptyString => [EmptyString]
  | String c tl =>
      if Ascii.eqb c sep then EmptyString :: split sep tl
      else match split sep tl with
           | piece :: pieces => String c piece :: pieces
           | [] => [String c EmptyString]
           end
  end.

(** [sep.join(pieces)]. *)
Fixpoint join (sep : string) (pieces : list string) : string :=
  match pieces with
  | [] => EmptyString
  | [p] => p
  | p :: rest => p ++ sep ++ join sep rest
  end.

(** [str.isspace] on one code point below U+0100: tab to carriage return,
    the four separators 0x1C-0x1F, space, NEL and the no-break space. *)
Definition isspace (c : ascii) : bool :=
  let n := nat_of_ascii c in
  ((9 <=? n) && (n <=? 13))%nat || ((28 <=? n) && (n <=? 32))%nat
  || (n =? 133)%nat || (n =? 160)%nat.

(** [s.split()]: the maximal runs of non-space characters. *)
Fixpoint split_whitespace (s : string) : list string :=
  match s with
  | EmptyString => []
  | String c tl =>
      if isspace c then split_whitespace tl
      else match tl with
           | EmptyString => [String c EmptyString]
           | String d _ =>
               if isspace d then String c EmptyString :: split_whitespace tl
               else match split_whitespace tl with
                    | word :: words => String c word :: words
                    | [] => [String c EmptyString]
                    end
           end
  end.

(** ** Integers *)

(** The C-locale [isspace] that [PyLong_FromString] skips with. *)
Definition Py_ISSPACE (c : ascii) : bool :=
  let n := nat_of_ascii c in
  ((9 <=? n) && (n <=? 13))%nat || (n =? 32)%nat.

Definition is_digit (c : ascii) : bool :=
  let n := nat_of_ascii c in ((48 <=? n) && (n <=? 57))%nat.

Definition digit_value (c : ascii) : Z := Z.of_nat (nat_of_ascii c - 48).

(** [int] first maps the non-ASCII spaces to a plain space; any other
    character from 0x7F on survives as a character no literal may hold. *)
Definition space_to_ascii (c : ascii) : ascii :=
  let n := nat_of_ascii c in
  if ((n =? 133) || (n =? 160))%nat then " "%char else c.

Fixpoint transform_space (s : string) : string :=
  match s with
  | EmptyString => EmptyString
  | String c tl => String (space_to_ascii c) (transform_space tl)
  end.

Fixpoint skip_spaces (s : string) : string :=
  match s with
  | EmptyString => EmptyString
  | String c tl => if Py_ISSPACE c then skip_spaces tl else s
  end.

Fixpoint all_spaces (s : string) : bool :=
  match s with
  | EmptyString => true
  | String c tl => Py_ISSPACE c && all_spaces tl
  end.

(** Digits with single underscores between them: the value read so far, the
    number of digits, and what follows.  [None] on a doubled or trailing
    underscore. *)
Fixpoint scan_digits (s : string) (after_underscore : bool) (acc : Z) (n : nat)
    : option (Z * nat * string) :=
  match s with
  | EmptyString => if after_underscore then None else Some (acc, n, s)
  | String c tl =>
      if is_digit c then scan_digits tl false (10 * acc + digit_value c) (S n)
      else if Ascii.eqb c "_"
           then if after_underscore then None else scan_digits tl true acc n
           else if after_underscore then None else Some (acc, n, s)
  end.

Definition split_sign (s : string) : Z * string :=
  match s with
  | String "+" tl => (1, tl)
  | String "-" tl => (-1, tl)
  | _ => (1, s)
  end.

Section Int.

(** [sys.get_int_max_str_digits()]: 4300 by default, 0 for no limit (also the
    interpreters that predate the limit); a limit is never below 640. *)
Variable int_max_str_digits : nat.

Definition over_digit_limit (n : nat) : bool :=
  ((640 <? n) && (0 <? int_max_str_digits) && (int_max_str_digits <? n))%nat.

(** [int(s)] in base 10: optional spaces, an optional sign, digits with
    single underscores between them, optional spaces. *)
Definition int (s : string) : result Z :=
  let '(sign, body) := split_sign (skip_spaces (transform_space s)) in
  match body with
  | String "_" _ => Raise (ValueError (int_conversion s))
  | _ =>
      match scan_digits body false 0 0 with
      | Some (v, n, rest) =>
          if (n =? 0)%nat || negb (all_spaces rest) || over_digit_limit n
          then Raise (ValueError (int_conversion s))
          else Ok (sign * v)
      | None => Raise (ValueError (int_conversion s))
      end
  end.

End Int.

(** [str(i)], which is also what an f-string writes for [{i}].  The digit
    limit never stops it on an integer that [int] has just read, whose
    decimal form is no longer than the literal it came from. *)
Definition str (i : Z) : string := NilZero.string_of_int (Z.to_int i).

(** ** Sequences *)

(** [len(l)]. *)
Definition len {A : Type} (l : list A) : Z := Z.of_nat (length l).

(** [l[i]]: negative indices count from the end. *)
Definition getitem {A : Type} (l : list A) (i : Z) : result A :=
  let j := if i <? 0 then i + len l else i in
  if j <? 0 then Raise IndexError
  else match nth_error l (Z.to_nat j) with
       | Some a => Ok a
       | None => Raise IndexError
       end.

(** [a, b = it] for an iterator that yields the [items] in order, each of
    which may raise when it is asked for.  After the two targets are filled
    the iterator is asked once more, to find it exhausted. *)
Definition unpack2 {A : Type} (items : list (result A)) : result (A * A) :=
  match items with
  | [] => Raise (ValueError (unpack_not_enough 2 0))
  | first :: rest =>
      bind first (fun a =>
      match rest with
      | [] => Raise (ValueError (unpack_not_enough 2 1))
      | second :: more =>
          bind second (fun b =>
          match more with
          | [] => Ok (a, b)
          | third :: _ =>
              bind third (fun _ => Raise (ValueError (unpack_too_many 2)))
          end)
      end)
  end.

(** Truth value of an [Optional[List[str]]]: [None] and the empty list are
    false. *)
Definition truthy {A : Type} (l : option (list A)) : bool :=
  match l with
  | Some (_ :: _) => true
  | _ => false
  end.

End Py.

Import Py.

Notation "x <- m ;; k" := (bind m (fun x => k))
  (at level 61, m at next level, right associativity).
Notation "' pat <- m ;; k" := (bind m (fun x => match x with pat => k end))
  (at level 61, pat pattern, m at next level, right associativity).

(** * The translator: class [CronTranslator] *)

Module CronTranslator.

Section Methods.

(** The interpreter's digit limit for [int] (see [Py.int]). *)
Variable int_max_str_digits : nat.

(** The external [croniter] package: the type of timestamps, the iterator
    object, its constructor [croniter(expression)] or
    [croniter(expression, base)], and [get_next], which returns the next fire
    time and advances the iterator.  Either call may raise. *)
Variable datetime : Type.
Variable croniter : Type.
Variable croniter_new : string -> option datetime -> result croniter.
Variable get_next : croniter -> result (datetime * croniter).

Local Abbreviation int := (Py.int int_max_str_digits).

Definition _MONTH_NAMES : list string :=
  ["enero"; "febrero"; "marzo"; "abril"; "mayo"; "junio";
   "julio"; "agosto"; "septiembre"; "octubre"; "noviembre"; "diciembre"]%string.

Definition _DAY_NAMES : list string :=
  ["domingo"; "lunes"; "martes"; py "miércoles";
   "jueves"; "viernes"; py "sábado"]%string.

(** [_validate_cron_expression]: build the iterator and drop it; a
    [ValueError] or [TypeError] means invalid, anything else propagates. *)
Definition _validate_cron_expression (expression : string) : result bool :=
  try_except
    (_ <- croniter_new expression None ;; Ok true)
    (fun e => is_ValueError e || is_TypeError e)
    (fun _ => Ok false).

(** The generator of the list branch,
    [names_list[int(v)] for v in valores if int(v) < len(names_list)],
    drained in order by [join]. *)
Fixpoint nombres (names_list valores : list string) : result (list string) :=
  match valores with
  | [] => Ok []
  | v :: rest =>
      i <- int v ;;
      if i <? len names_list
      then j <- int v ;;
           nombre <- getitem names_list j ;;
           otros <- nombres names_list rest ;;
           Ok (nombre :: otros)
      else nombres names_list rest
  end.

(** Body of [if ',' in value:] (conjuntos de valores). *)
Definition parse_conjunto (value type_name : string)
    (names_list : option (list string)) : result string :=
  let valores := split "," value in
  match names_list with
  | Some ((_ :: _) as names) =>
      listed <- nombres names valores ;;
      Ok ("los " ++ join ", " listed)%string
  | _ => Ok (type_name ++ "s: " ++ join ", " valores)%string
  end.

(** Body of [if '-' in value:] (rangos). *)
Definition parse_rango (value type_name : string)
    (names_list : option (list string)) : result string :=
  '(inicio, fin) <- unpack2 (map int (split "-" value)) ;;
  match names_list with
  | Some ((_ :: _) as names) =>
      desde <- getitem names inicio ;;
      hasta <- getitem names fin ;;
      Ok ("de " ++ desde ++ " a " ++ hasta)%string
  | _ => Ok (type_name ++ "s del " ++ str inicio ++ " al " ++ str fin)%string
  end.

(** Body of [if '/' in value:] (intervalos). *)
Definition parse_intervalo (value type_name : string) : result string :=
  '(_, intervalo) <- unpack2 (map Ok (split "/" value)) ;;
  Ok ("cada " ++ intervalo ++ " " ++ type_name ++ "s")%string.

(** [_parse_field(value, type_name, names_list=None)]. *)
Definition _parse_field (value type_name : string)
    (names_list : option (list string)) : result string :=
  if String.eqb value "*" then Ok ("cada " ++ type_name)%string
  else if contains "," value then parse_conjunto value type_name names_list
  else if contains "-" value then parse_rango value type_name names_list
  else if contains "/" value then parse_intervalo value type_name
  else Ok value.

(** [a, b, c, d, e = fields] on a list. *)
Definition unpack5 (fields : list string)
    : result (string * string * string * string * string) :=
  match fields with
  | [a; b; c; d; e] => Ok (a, b, c, d, e)
  | _ =>
      if (length fields <? 5)%nat
      then Raise (ValueError (unpack_not_enough 5 (length fields)))
      else Raise (ValueError (unpack_too_many 5))
  end.

Definition invalid_expression (cron_expression : string) : exception :=
  ValueError (message (py "Expresión cron inválida: " ++ cron_expression)).

Definition invalid_format : exception :=
  ValueError (message (py "Formato de expresión cron inválido.")).

(** [translate(cron_expression)]. *)
Definition translate (cron_expression : string) : result string :=
  valid <- _validate_cron_expression cron_expression ;;
  if negb valid then Raise (invalid_expression cron_expression)
  else
    '(minute, hour, day_of_month, month, day_of_week) <-
      try_except (unpack5 (split_whitespace cron_expression))
        is_ValueError (fun _ => Raise invalid_format) ;;
    minutos <- _parse_field minute "minuto" None ;;
    horas <- _parse_field hour "hora" None ;;
    dias_del_mes <- _parse_field day_of_month (py "día del mes") None ;;
    meses <- _parse_field month "mes" (Some _MONTH_NAMES) ;;
    dias <- _parse_field day_of_week (py "día") (Some _DAY_NAMES) ;;
    Ok (join " " [minutos; horas; dias_del_mes; meses; dias]).

(** [[cron.get_next(datetime) for _ in range(count)]], the iterator
    advancing at each call. *)
Fixpoint next_times (n : nat) (cron : croniter) : result (list datetime) :=
  match n with
  | O => Ok []
  | S k =>
      '(t, cron') <- get_next cron ;;
      ts <- next_times k cron' ;;
      Ok (t :: ts)
  end.

(** One call of [self.logger.error]: the exception that went into the
    message. *)
Inductive log_record : Type :=
| log_error (e : exception).

(** [get_next_executions(cron_expression, count)], [base] being what
    [datetime.now()] returns and [log] what the logger has received so far;
    [range(count)] is empty for a negative [count]. *)
Definition get_next_executions (cron_expression : string) (count : Z)
    (base : datetime) (log : list log_record)
    : result (list datetime) * list log_record :=
  match (cron <- croniter_new cron_expression (Some base) ;;
         next_times (Z.to_nat count) cron) with
  | Ok times => (Ok times, log)
  | Raise e =>
      if is_Exception e then (Ok [], (log ++ [log_error e])%list)
      else (Raise e, log)
  end.

End Methods.

Arguments _validate_cron_expression {datetime croniter} croniter_new expression.
Arguments translate int_max_str_digits {datetime croniter} croniter_new cron_expression.
Arguments next_times {datetime croniter} get_next n cron.
Arguments get_next_executions {datetime croniter} croniter_new get_next cron_expression count base log.

End CronTranslator.

Import CronTranslator.

(** ** Syntactic forms of a field *)

(** The five forms a field token can take, as the specification names
    them. *)
Inductive FieldForm : Type :=
| Wildcard | List | Range | Step | Literal.

(** Which tokens have which form, following the specification: each form is
    described on its own by the separators the token holds, a List by its
    [,] alone, a Range by a [-] without a [,]. *)
Definition has_form (f : FieldForm) (value : string) : Prop :=
  match f with
  | Wildcard => value = "*"%string
  | List => contains "," value = true
  | Range => contains "," value = false /\ contains "-" value = true
  | Step =>
      contains "," value = false /\ contains "-" value = false
      /\ contains "/" value = true
  | Literal =>
      value <> "*"%string /\ contains "," value = false
      /\ contains "-" value = false /\ contains "/" value = false
  end.

(** The renderer of each form: the body of the matching branch of
    [_parse_field]. *)
Definition render (lim : nat) (f : FieldForm) (value type_name : string)
    (names_list : option (list string)) : result string :=
  match f with
  | Wildcard => Ok ("cada " ++ type_name)%string
  | List => parse_conjunto lim value type_name names_list
  | Range => parse_rango lim value type_name names_list
  | Step => parse_intervalo value type_name
  | Literal => Ok value
  end.

(** ** A stand-in for the collaborator

    Used to run the translator on concrete expressions: it only counts the
    columns of the expression, accepting five to seven, and its fire times
    are consecutive integers. *)
Definition columns_croniter (expression : string) (start : option Z) : result Z :=
  let n := length (split_whitespace expression) in
  if ((5 <=? n) && (n <=? 7))%nat then Ok (match start with Some t => t | None => 0 end)
  else Raise (ValueError (message "bad cron expression")).

Definition columns_get_next (cron : Z) : result (Z * Z) := Ok (cron + 1, cron + 1).

(** * The demonstration driver: [main] *)

Section Driver.

Variable int_max_str_digits : nat.
Variable datetime : Type.
Variable croniter : Type.
Variable croniter_new : string -> option datetime -> result croniter.
Variable get_next : croniter -> result (datetime * croniter).

(** What [datetime.now()] returns during the i-th turn of the loop, and the
    text that [str] gives for a timestamp and for an exception. *)
Variable now : nat -> datetime.
Variable str_datetime : datetime -> string.
Variable str_exception : exception -> string.

(** What the process has done so far: the texts handed to [print], in order,
    and the records handed to the logger. *)
Record world : Type :=
  { stdout : list string;
    logged : list log_record }.

Definition print (text : string) (w : world) : world :=
  {| stdout := (stdout w ++ [text])%list; logged := logged w |}.

Definition cron_expressions : list string :=
  ["*/5 * * * *"; "0 2 * * 1-5"; "0 0 1 */2 *"; "30 3 15 * *";
   "0 12 * * 1,3,5"]%string.

Definition header (expression : string) : string :=
  String "010" (py "Expresión: ") ++ expression.

Definition error_line (expression : string) (e : exception) : string :=
  "Error procesando " ++ expression ++ ": " ++ str_exception e.

(** The body of the [try] for one expression; [get_next_executions] is called
    with its default [count], 5. *)
Definition try_body (expression : string) (base : datetime) (w : world)
    : result unit * world :=
  let w1 := print (header expression) w in
  match translate int_max_str_digits croniter_new expression with
  | Raise e => (Raise e, w1)
  | Ok traduccion =>
      let w2 := print (py "Traducción:" ++ " " ++ traduccion) w1 in
      let w3 := print (py "Próximas ejecuciones:") w2 in
      match get_next_executions croniter_new get_next expression 5 base
              (logged w3) with
      | (Raise e, records) =>
          (Raise e, {| stdout := stdout w3; logged := records |})
      | (Ok times, records) =>
          (Ok tt,
           fold_left (fun w' exec_time => print ("  - " ++ str_datetime exec_time) w')
             times {| stdout := stdout w3; logged := records |})
      end
  end.

(** One turn of the loop: the [try] with its [except Exception]. *)
Definition iteration (expression : string) (base : datetime) (w : world)
    : result unit * world :=
  match try_body expression base w with
  | (Ok u, w') => (Ok u, w')
  | (Raise e, w') =>
      if is_Exception e then (Ok tt, print (error_line expression e) w')
      else (Raise e, w')
  end.

(** [for expression in expressions:], from turn [i] on. *)
Fixpoint for_expressions (expressions : list string) (i : nat) (w : world)
    : result unit * world :=
  match expressions with
  | [] => (Ok tt, w)
  | expression :: rest =>
      match iteration expression (now i) w with
      | (Ok _, w') => for_expressions rest (S i) w'
      | (Raise e, w') => (Raise e, w')
      end
  end.

(** [main()], from a silent process. *)
Definition main : result unit * world :=
  for_expressions cron_expressions 0 {| stdout := []; logged := [] |}.

(** The texts one turn of the loop can print for an expression: the header
    and the error line when the translation fails; the header, the
    translation, the title of the fire times and one line for each of five
    fire times, or for none, when it succeeds. *)
Definition printed_for (expression : string) (block : list string) : Prop :=
  (exists e,
      translate int_max_str_digits croniter_new expression = Raise e
      /\ block = [header expression; error_line expression e])
  \/ (exists traduccion times,
         translate int_max_str_digits croniter_new expression = Ok traduccion
         /\ (length times = 5%nat \/ times = [])
         /\ block = header expression
                    :: (py "Traducción:" ++ " " ++ traduccion)
                    :: py "Próximas ejecuciones:"
                    :: map (fun t => "  - " ++ str_datetime t) times).

End Driver.

Arguments try_body int_max_str_digits {datetime croniter}.
Arguments iteration int_max_str_digits {datetime croniter}.
Arguments for_expressions int_max_str_digits {datetime croniter}.
Arguments main int_max_str_digits {datetime croniter}.
Arguments printed_for int_max_str_digits {datetime croniter}.

(** * Properties *)

(** ** Strings *)

Lemma contains_app (c : ascii) (a b : string) :
  contains c (a ++ b) = contains c a || contains c b.
Proof.
  induction a as [|d a IH]; simpl; [reflexivity|].
  rewrite IH. apply orb_assoc.
Qed.

Lemma split_without (c : ascii) (s : string) :
  contains c s = false -> split c s = [s].
Proof.
  induction s as [|d s IH]; simpl; intros H; [reflexivity|].
  apply orb_false_iff in H. destruct H as [Hd Hs].
  rewrite Hd, (IH Hs). reflexivity.
Qed.

Lemma split_app (c : ascii) (a b : string) :
  contains c a = false -> split c (a ++ String c b) = a :: split c b.
Proof.
  induction a as [|d a IH]; simpl; intros H.
  - rewrite Ascii.eqb_refl. reflexivity.
  - apply orb_false_iff in H. destruct H as [Hd Ha].
    rewrite Hd, (IH Ha). reflexivity.
Qed.

Lemma not_star (c : ascii) (value : string) :
  contains c value = true -> contains c "*" = false ->
  String.eqb value "*" = false.
Proof.
  intros Hv Hs. destruct (String.eqb_spec value "*") as [->|]; [|reflexivity].
  congruence.
Qed.

Section Properties.

Variable int_max_str_digits : nat.

#[local] Arguments Py.int : simpl never.
#[local] Arguments Py.getitem : simpl never.

Local Abbreviation int := (Py.int int_max_str_digits).
Local Abbreviation _parse_field := (_parse_field int_max_str_digits).
Local Abbreviation parse_conjunto := (parse_conjunto int_max_str_digits).
Local Abbreviation parse_rango := (parse_rango int_max_str_digits).
Local Abbreviation nombres := (nombres int_max_str_digits).
Local Abbreviation render := (render int_max_str_digits).

(** ** The branches of [_parse_field] *)

Lemma parse_field_list (value type_name : string) names_list :
  contains "," value = true ->
  _parse_field value type_name names_list
  = parse_conjunto value type_name names_list.
Proof.
  intros H. unfold CronTranslator._parse_field.
  rewrite (not_star "," value H eq_refl), H. reflexivity.
Qed.

Lemma parse_field_range (value type_name : string) names_list :
  contains "," value = false -> contains "-" value = true ->
  _parse_field value type_name names_list
  = parse_rango value type_name names_list.
Proof.
  intros H1 H2. unfold CronTranslator._parse_field.
  rewrite (not_star "-" value H2 eq_refl), H1, H2. reflexivity.
Qed.

Lemma parse_field_step (value type_name : string) names_list :
  contains "," value = false -> contains "-" value = false ->
  contains "/" value = true ->
  _parse_field value type_name names_list = parse_intervalo value type_name.
Proof.
  intros H1 H2 H3. unfold CronTranslator._parse_field.
  rewrite (not_star "/" value H3 eq_refl), H1, H2, H3. reflexivity.
Qed.

Lemma parse_field_literal (value type_name : string) names_list :
  value <> "*"%string -> contains "," value = false ->
  contains "-" value = false -> contains "/" value = false ->
  _parse_field value type_name names_list = Ok value.
Proof.
  intros H0 H1 H2 H3. unfold CronTranslator._parse_field.
  destruct (String.eqb_spec value "*"); [contradiction|].
  rewrite H1, H2, H3. reflexivity.
Qed.

(** ** Python indexing *)

Lemma getitem_in_range {A : Type} (l : list A) (i : Z) (d : A) :
  0 <= i < len l -> getitem l i = Ok (nth (Z.to_nat i) l d).
Proof.
  intros [Hlo Hhi]. unfold getitem.
  destruct (Z.ltb_spec i 0) as [|_]; [lia|].
  destruct (Z.ltb_spec i 0) as [|_]; [lia|].
  destruct (nth_error l (Z.to_nat i)) as [a|] eqn:E.
  - rewrite (nth_error_nth _ _ d E). reflexivity.
  - apply nth_error_None in E. unfold len in Hhi. lia.
Qed.

Lemma getitem_out_of_range {A : Type} (l : list A) (i : Z) :
  len l <= i \/ i < - len l -> getitem l i = Raise IndexError.
Proof.
  intros H. unfold getitem, len in *.
  destruct (Z.ltb_spec i 0) as [Hneg|Hpos].
  - destruct (Z.ltb_spec (i + Z.of_nat (length l)) 0) as [|]; [reflexivity|lia].
  - destruct (Z.ltb_spec i 0) as [|_]; [lia|].
    destruct (nth_error l (Z.to_nat i)) eqn:E; [|reflexivity].
    assert (Hsome : nth_error l (Z.to_nat i) <> None) by congruence.
    apply nth_error_Some in Hsome. lia.
Qed.

Lemma getitem_total {A : Type} (l : list A) (i : Z) :
  (exists a, getitem l i = Ok a) \/ getitem l i = Raise IndexError.
Proof.
  unfold getitem.
  destruct (_ <? 0); [right; reflexivity|].
  destruct (nth_error _ _); [left; eexists; reflexivity|right; reflexivity].
Qed.

(** ** Reading integers *)

Lemma int_result (v : string) :
  (exists i, int v = Ok i) \/ int v = Raise (ValueError (int_conversion v)).
Proof.
  unfold Py.int.
  destruct (split_sign _) as [sign body].
  destruct body as [|c body'].
  - destruct (scan_digits _ _ _ _) as [[[x n] rest]|]; [|right; reflexivity].
    destruct (_ || _); [right; reflexivity|left; eexists; reflexivity].
  - destruct c as [[] [] [] [] [] [] [] []];
      try (right; reflexivity);
      (destruct (scan_digits _ _ _ _) as [[[x n] rest]|]; [|right; reflexivity];
       destruct (_ || _); [right; reflexivity|left; eexists; reflexivity]).
Qed.

Lemma Forall_ex_Forall2 {A B : Type} (P : A -> B -> Prop) (l : list A) :
  Forall (fun a => exists b, P a b) l -> exists l', Forall2 P l l'.
Proof.
  induction 1 as [|a l [b Hb] _ [l' IH]].
  - exists []. constructor.
  - exists (b :: l'). constructor; assumption.
Qed.

(** ** The list branch *)

(** On sub-tokens that read as non-negative integers the generator yields
    the names of those below the length of the table, in order. *)
Lemma nombres_names (names valores : list string) (idxs : list Z) :
  Forall2 (fun v i => int v = Ok i /\ 0 <= i) valores idxs ->
  nombres names valores
  = Ok (map (fun i => nth (Z.to_nat i) names EmptyString)
          (filter (fun i => i <? len names) idxs)).
Proof.
  induction 1 as [|v i valores idxs [Hv Hi] _ IH]; simpl; [reflexivity|].
  rewrite Hv. simpl.
  destruct (Z.ltb_spec i (len names)) as [Hlt|Hge].
  - simpl. rewrite (getitem_in_range names i EmptyString) by lia. simpl.
    rewrite IH. reflexivity.
  - exact IH.
Qed.

(** A sub-token that does not read as an integer stops the generator. *)
Lemma nombres_raise (names valores : list string) :
  Exists (fun v => exists e, int v = Raise e) valores ->
  exists e, nombres names valores = Raise e.
Proof.
  induction valores as [|v valores IH]; intros H; [inversion H|].
  simpl. destruct (int v) as [i|e] eqn:Hv; [|exists e; reflexivity].
  assert (Hrest : Exists (fun v => exists e, int v = Raise e) valores).
  { inversion H as [? ? [e He]|]; subst; [congruence|assumption]. }
  destruct (IH Hrest) as [e He]. simpl.
  destruct (i <? len names); [|exists e; exact He].
  simpl. destruct (getitem names i) as [x|e']; simpl; [|exists e'; reflexivity].
  rewrite He. exists e. reflexivity.
Qed.

(** ** The range branch *)

Lemma unpack2_int_raise (parts : list string) :
  Exists (fun v => exists e, int v = Raise e) parts ->
  exists w, unpack2 (map int parts) = Raise (ValueError w).
Proof.
  intros H.
  destruct parts as [|p [|q [|r rest]]]; simpl.
  - inversion H.
  - destruct (int_result p) as [[a Ha]|Ha]; rewrite Ha; simpl; eexists; reflexivity.
  - destruct (int_result p) as [[a Ha]|Ha]; rewrite Ha; simpl;
      [|eexists; reflexivity].
    destruct (int_result q) as [[b Hb]|Hb]; rewrite Hb; simpl;
      [|eexists; reflexivity].
    inversion H as [? ? [e He]|? ? H']; subst; [congruence|].
    inversion H' as [? ? [e He]|? ? H'']; subst; [congruence|inversion H''].
  - destruct (int_result p) as [[a Ha]|Ha]; rewrite Ha; simpl;
      [|eexists; reflexivity].
    destruct (int_result q) as [[b Hb]|Hb]; rewrite Hb; simpl;
      [|eexists; reflexivity].
    destruct (int_result r) as [[c Hc]|Hc]; rewrite Hc; simpl;
      eexists; reflexivity.
Qed.

(** ** Unpacking the fields *)

Lemma unpack5_wrong_count (fields : list string) :
  length fields <> 5%nat -> exists w, unpack5 fields = Raise (ValueError w).
Proof.
  intros H. unfold unpack5.
  destruct fields as [|a [|b [|c [|d [|e [|f rest]]]]]];
    try (destruct (_ <? _)%nat; eexists; reflexivity).
  simpl in H. congruence.
Qed.

(** ** Claims *)

(** C7. Classification is mutually exclusive and follows the precedence
    Wildcard, List, Range, Step, Literal: every token has exactly one form,
    and [_parse_field] runs the renderer of that form and no other.  A token
    with a [,] is rendered as a List whatever else it holds, and a token with
    a [-] and no [,] is rendered as a Range whatever else it holds. *)
Theorem parse_field_dispatch (value type_name : string) names_list :
  (exists f : FieldForm,
      has_form f value
      /\ (forall g, has_form g value -> g = f)
      /\ _parse_field value type_name names_list
         = render f value type_name names_list)
  /\ (contains "," value = true ->
      _parse_field value type_name names_list
      = parse_conjunto value type_name names_list)
  /\ (contains "," value = false -> contains "-" value = true ->
      _parse_field value type_name names_list
      = parse_rango value type_name names_list).
Proof.
  split; [|split; [apply parse_field_list|apply parse_field_range]].
  destruct (String.eqb_spec value "*") as [->|Hstar].
  { exists Wildcard. repeat split.
    intros [] H; simpl in H; try reflexivity; intuition discriminate. }
  destruct (contains "," value) eqn:Hc.
  { exists List. repeat split; [exact Hc| |apply parse_field_list; exact Hc].
    intros [] H; simpl in H; try reflexivity; intuition congruence. }
  destruct (contains "-" value) eqn:Hr.
  { exists Range. repeat split; try assumption.
    - intros [] H; simpl in H; try reflexivity; intuition congruence.
    - apply parse_field_range; assumption. }
  destruct (contains "/" value) eqn:Hs.
  { exists Step. repeat split; try assumption.
    - intros [] H; simpl in H; try reflexivity; intuition congruence.
    - apply parse_field_step; assumption. }
  exists Literal. repeat split; try assumption.
  - intros [] H; simpl in H; try reflexivity; intuition congruence.
  - apply parse_field_literal; assumption.
Qed.

(** C6. A Step token [base/N], [base] being [*] or any other text free of
    separators and [N] free of separators, renders as ["cada N {noun}s"]: the
    text after the [/] is embedded as it stands and the base is dropped. *)
Theorem step_renders_interval (base interval type_name : string) names_list :
  contains "," base = false -> contains "-" base = false ->
  contains "/" base = false ->
  contains "," interval = false -> contains "-" interval = false ->
  contains "/" interval = false ->
  _parse_field (base ++ "/" ++ interval) type_name names_list
  = Ok ("cada " ++ interval ++ " " ++ type_name ++ "s")%string.
Proof.
  intros Hb1 Hb2 Hb3 Hi1 Hi2 Hi3.
  rewrite parse_field_step.
  - unfold parse_intervalo. simpl (_ ++ interval)%string.
    rewrite (split_app "/" base interval Hb3), (split_without "/" interval Hi3).
    reflexivity.
  - rewrite contains_app. simpl. rewrite Hb1, Hi1. reflexivity.
  - rewrite contains_app. simpl. rewrite Hb2, Hi2. reflexivity.
  - rewrite contains_app. simpl. apply orb_true_r.
Qed.

(** C10. On a Step token the name table is never consulted: the phrase is
    the one rendered without a table.  The plural is the noun followed by an
    [s]: the month token [*/2] gives ["cada 2 mess"] and the day-of-month
    token [*/2] gives ["cada 2 día del mess"], alone and inside [translate]. *)
Theorem step_never_consults_names :
  (forall (value type_name : string) names_list,
      has_form Step value ->
      _parse_field value type_name names_list
      = _parse_field value type_name None)
  /\ _parse_field "*/2" "mes" (Some _MONTH_NAMES) = Ok "cada 2 mess"%string
  /\ _parse_field "*/2" (py "día del mes") None = Ok (py "cada 2 día del mess")
  /\ (forall (datetime croniter : Type)
        (croniter_new : string -> option datetime -> result croniter) cron,
        croniter_new "0 0 */2 */2 *"%string None = Ok cron ->
        translate int_max_str_digits croniter_new "0 0 */2 */2 *"
        = Ok (py "0 0 cada 2 día del mess cada 2 mess cada día")).
Proof.
  split; [|split; [reflexivity|split; [reflexivity|]]].
  - intros value type_name names_list (H1 & H2 & H3).
    rewrite !parse_field_step by assumption. reflexivity.
  - intros datetime croniter croniter_new cron H.
    unfold translate, _validate_cron_expression. rewrite H. reflexivity.
Qed.

(** C4. A Range token [a-b] on a field with a name table renders as
    ["de {name[a]} a {name[b]}"], the table being indexed with the two parsed
    integers as they are: an index outside the table is not filtered and
    raises [IndexError].  The month token [1-5] renders as
    ["de febrero a junio"]. *)
Theorem range_renders_names :
  (forall (value type_name sa sb : string) (names : list string) (a b : Z),
      names <> [] -> contains "," value = false ->
      split "-" value = [sa; sb] -> int sa = Ok a -> int sb = Ok b ->
      _parse_field value type_name (Some names)
      = (desde <- getitem names a ;;
         hasta <- getitem names b ;;
         Ok ("de " ++ desde ++ " a " ++ hasta)%string)
      /\ ((len names <= a \/ a < - len names
           \/ len names <= b \/ b < - len names) ->
          _parse_field value type_name (Some names) = Raise IndexError))
  /\ _parse_field "1-5" "mes" (Some _MONTH_NAMES) = Ok "de febrero a junio"%string.
Proof.
  split; [|vm_compute; reflexivity].
  intros value type_name sa sb names a b Hn Hc Hs Ha Hb.
  assert (Hr : contains "-" value = true).
  { destruct (contains "-" value) eqn:E; [reflexivity|].
    rewrite (split_without _ _ E) in Hs. discriminate. }
  rewrite (parse_field_range _ _ _ Hc Hr).
  unfold CronTranslator.parse_rango. rewrite Hs. simpl. rewrite Ha, Hb. simpl.
  destruct names as [|n0 names']; [contradiction|].
  split; [reflexivity|].
  intros Hout.
  destruct (getitem_total (n0 :: names') a) as [[x Hx]|Hx]; rewrite Hx; simpl;
    [|reflexivity].
  destruct Hout as [H|[H|H]].
  - rewrite getitem_out_of_range in Hx by (left; exact H). discriminate.
  - rewrite getitem_out_of_range in Hx by (right; exact H). discriminate.
  - rewrite (getitem_out_of_range (n0 :: names') b) by exact H. reflexivity.
Qed.

(** C3, as amended. A List token whose sub-tokens all read as non-negative
    integers, rendered with a name table: the indices from the length of the
    table on are dropped without an error, and the indices below it appear as
    their names, in the order of the token, joined with [", "] after
    ["los "].  So [1,3,5] on the weekday field gives
    ["los lunes, miércoles, viernes"] and [1,7,9] gives ["los lunes"]. *)
Theorem list_renders_names :
  (forall (value type_name : string) (names : list string) (idxs : list Z),
      names <> [] -> has_form List value ->
      Forall2 (fun v i => int v = Ok i /\ 0 <= i) (split "," value) idxs ->
      _parse_field value type_name (Some names)
      = Ok ("los " ++ join ", "
              (map (fun i => nth (Z.to_nat i) names EmptyString)
                 (filter (fun i => i <? len names) idxs))))
  /\ _parse_field "1,3,5" (py "día") (Some _DAY_NAMES)
     = Ok (py "los lunes, miércoles, viernes")
  /\ _parse_field "1,7,9" (py "día") (Some _DAY_NAMES) = Ok "los lunes"%string.
Proof.
  split; [|split; vm_compute; reflexivity].
  intros value type_name names idxs Hn Hc Hidx.
  rewrite (parse_field_list _ _ _ Hc).
  unfold CronTranslator.parse_conjunto.
  destruct names as [|n0 names']; [contradiction|].
  rewrite (nombres_names _ _ _ Hidx). reflexivity.
Qed.

(** C1, as amended. [_parse_field] returns a phrase, with or without a name
    table, on every token whose numeric parts are well formed: a Wildcard or
    a Literal token, a List token without a name table, a List token with a
    name table whose sub-tokens all read as non-negative integers, a Range
    token made of two sub-tokens that read as integers (both inside the table
    when there is one), a Step token with one [/].  A Range token, or a List
    token with a name table, that holds a sub-token which does not read as an
    integer yields an error and no phrase. *)
Theorem parse_field_returns_phrase (value type_name : string) names_list :
  (has_form Wildcard value
   \/ has_form Literal value
   \/ (has_form List value /\ truthy names_list = false)
   \/ (has_form List value
       /\ Forall (fun v => exists i, int v = Ok i /\ 0 <= i) (split "," value))
   \/ (has_form Range value
       /\ exists a b, map int (split "-" value) = [Ok a; Ok b]
          /\ forall names, names_list = Some names -> names <> [] ->
               0 <= a < len names /\ 0 <= b < len names)
   \/ (has_form Step value /\ length (split "/" value) = 2%nat)
   -> exists phrase, _parse_field value type_name names_list = Ok phrase)
  /\ (has_form Range value ->
      Exists (fun v => exists e, int v = Raise e) (split "-" value) ->
      exists w, _parse_field value type_name names_list = Raise (ValueError w))
  /\ (has_form List value -> truthy names_list = true ->
      Exists (fun v => exists e, int v = Raise e) (split "," value) ->
      exists e, _parse_field value type_name names_list = Raise e).
Proof.
  split; [|split].
  - intros [H|[H|[[H Hn]|[[H Hall]|[[H Hab]|[H Hlen]]]]]]; simpl in H.
    + subst value. eexists. reflexivity.
    + destruct H as (H0 & H1 & H2 & H3).
      rewrite parse_field_literal by assumption. eexists. reflexivity.
    + rewrite (parse_field_list _ _ _ H). unfold CronTranslator.parse_conjunto.
      destruct names_list as [[|n0 names']|]; simpl in Hn; try discriminate;
        eexists; reflexivity.
    + rewrite (parse_field_list _ _ _ H). unfold CronTranslator.parse_conjunto.
      destruct names_list as [[|n0 names']|]; try (eexists; reflexivity).
      destruct (Forall_ex_Forall2 _ _ Hall) as [idxs Hidx].
      rewrite (nombres_names _ _ _ Hidx). eexists. reflexivity.
    + destruct H as [H1 H2]. destruct Hab as (a & b & Hmap & Hin).
      rewrite (parse_field_range _ _ _ H1 H2). unfold CronTranslator.parse_rango.
      rewrite Hmap. simpl.
      destruct names_list as [[|n0 names']|]; try (eexists; reflexivity).
      destruct (Hin _ eq_refl) as [Ha Hb]; [discriminate|].
      rewrite (getitem_in_range _ a EmptyString Ha). simpl.
      rewrite (getitem_in_range _ b EmptyString Hb). simpl.
      eexists. reflexivity.
    + destruct H as (H1 & H2 & H3).
      rewrite (parse_field_step _ _ _ H1 H2 H3). unfold parse_intervalo.
      destruct (split "/" value) as [|p [|q [|r rest]]]; simpl in Hlen;
        try discriminate.
      eexists. reflexivity.
  - intros [H1 H2] Hex.
    rewrite (parse_field_range _ _ _ H1 H2). unfold CronTranslator.parse_rango.
    destruct (unpack2_int_raise _ Hex) as [w Hw]. rewrite Hw.
    exists w. reflexivity.
  - intros H Hn Hex. simpl in H.
    rewrite (parse_field_list _ _ _ H). unfold CronTranslator.parse_conjunto.
    destruct names_list as [[|n0 names']|]; simpl in Hn; try discriminate.
    destruct (nombres_raise (n0 :: names') _ Hex) as [e He]. rewrite He.
    exists e. reflexivity.
Qed.

End Properties.

Section TranslatorProperties.

Variable int_max_str_digits : nat.
Variable datetime : Type.
Variable croniter : Type.
Variable croniter_new : string -> option datetime -> result croniter.
Variable get_next : croniter -> result (datetime * croniter).

Local Abbreviation _parse_field := (_parse_field int_max_str_digits).
Local Abbreviation translate := (translate int_max_str_digits croniter_new).
Local Abbreviation get_next_executions :=
  (get_next_executions croniter_new get_next).

Lemma translate_accepted (cron_expression : string) (cron : croniter) :
  croniter_new cron_expression None = Ok cron ->
  translate cron_expression
  = ('(minute, hour, day_of_month, month, day_of_week) <-
       try_except (unpack5 (split_whitespace cron_expression))
         is_ValueError (fun _ => Raise invalid_format) ;;
     minutos <- _parse_field minute "minuto" None ;;
     horas <- _parse_field hour "hora" None ;;
     dias_del_mes <- _parse_field day_of_month (py "día del mes") None ;;
     meses <- _parse_field month "mes" (Some _MONTH_NAMES) ;;
     dias <- _parse_field day_of_week (py "día") (Some _DAY_NAMES) ;;
     Ok (join " " [minutos; horas; dias_del_mes; meses; dias])).
Proof.
  intros H. unfold CronTranslator.translate, _validate_cron_expression.
  rewrite H. reflexivity.
Qed.

(** C5. Once the validator has accepted it, ["30 3 15 * *"] splits into its
    five fields, the literal fields render as themselves, with no noun, the
    wildcards as ["cada mes"] and ["cada día"], and [translate] returns the
    five clauses in field order, joined with single spaces. *)
Theorem translate_30_3_15 (cron : croniter) :
  croniter_new "30 3 15 * *"%string None = Ok cron ->
  split_whitespace "30 3 15 * *" = ["30"; "3"; "15"; "*"; "*"]%string
  /\ _parse_field "30" "minuto" None = Ok "30"%string
  /\ _parse_field "3" "hora" None = Ok "3"%string
  /\ _parse_field "15" (py "día del mes") None = Ok "15"%string
  /\ _parse_field "*" "mes" (Some _MONTH_NAMES) = Ok "cada mes"%string
  /\ _parse_field "*" (py "día") (Some _DAY_NAMES) = Ok (py "cada día")
  /\ translate "30 3 15 * *"
     = Ok (join " " ["30"; "3"; "15"; "cada mes"; py "cada día"]%string)
  /\ translate "30 3 15 * *" = Ok (py "30 3 15 cada mes cada día").
Proof.
  intros H. rewrite (translate_accepted _ _ H).
  repeat split; vm_compute; reflexivity.
Qed.

(** C8. An expression whose five fields are all [*], once the validator has
    accepted it, translates to
    ["cada minuto cada hora cada día del mes cada mes cada día"]. *)
Theorem translate_all_wildcards (cron_expression : string) (cron : croniter) :
  croniter_new cron_expression None = Ok cron ->
  split_whitespace cron_expression = ["*"; "*"; "*"; "*"; "*"]%string ->
  translate cron_expression
  = Ok (py "cada minuto cada hora cada día del mes cada mes cada día").
Proof.
  intros H Hs. rewrite (translate_accepted _ _ H), Hs.
  vm_compute. reflexivity.
Qed.

(** C2, as amended. An expression that the validator accepts and that does
    not split into exactly five fields makes [translate] fail with the format
    error, with no output.  An expression that the validator rejects fails
    with the syntax error instead, whatever the number of its fields; the two
    errors are distinct. *)
Theorem wrong_field_count_fails (cron_expression : string) :
  (forall cron, croniter_new cron_expression None = Ok cron ->
     length (split_whitespace cron_expression) <> 5%nat ->
     translate cron_expression = Raise invalid_format)
  /\ (forall e, croniter_new cron_expression None = Raise e ->
        is_ValueError e || is_TypeError e = true ->
        translate cron_expression = Raise (invalid_expression cron_expression))
  /\ invalid_format <> invalid_expression cron_expression.
Proof.
  split; [|split].
  - intros cron H Hlen. rewrite (translate_accepted _ _ H).
    destruct (unpack5_wrong_count _ Hlen) as [w Hw]. rewrite Hw. reflexivity.
  - intros e H He. unfold CronTranslator.translate, _validate_cron_expression.
    rewrite H. simpl. rewrite He. reflexivity.
  - unfold invalid_format, invalid_expression. intros Heq.
    injection Heq as Heq. vm_compute in Heq. discriminate.
Qed.

(** C9. [get_next_executions] never raises: it always returns a list.
    Whenever the collaborator fails, in the constructor (an expression it
    does not accept) or in any of the [get_next] calls, the list is empty and
    the failure is logged; when it does not fail, the list holds the fire
    times it gave. *)
Theorem get_next_executions_never_raises (cron_expression : string) (count : Z)
    (base : datetime) (log : list log_record) :
  (exists times log',
      get_next_executions cron_expression count base log = (Ok times, log'))
  /\ (forall e, croniter_new cron_expression (Some base) = Raise e ->
        get_next_executions cron_expression count base log
        = (Ok [], log ++ [log_error e])%list)
  /\ (forall e,
        (cron <- croniter_new cron_expression (Some base) ;;
         next_times get_next (Z.to_nat count) cron) = Raise e ->
        get_next_executions cron_expression count base log
        = (Ok [], log ++ [log_error e])%list)
  /\ (forall times,
        (cron <- croniter_new cron_expression (Some base) ;;
         next_times get_next (Z.to_nat count) cron) = Ok times ->
        get_next_executions cron_expression count base log = (Ok times, log)).
Proof.
  unfold CronTranslator.get_next_executions.
  split; [|split; [|split]].
  - destruct (bind _ _) as [times|e]; simpl; eexists; eexists; reflexivity.
  - intros e H. rewrite H. reflexivity.
  - intros e H. rewrite H. reflexivity.
  - intros times H. rewrite H. reflexivity.
Qed.

End TranslatorProperties.

(** * The claims at concrete inputs

    The interpreter's digit limit is the default one, 4300, and the
    collaborator is [columns_croniter]. *)

Lemma month_names_not_nil : _MONTH_NAMES <> [].
Proof. discriminate. Defined.

Lemma day_names_not_nil : _DAY_NAMES <> [].
Proof. discriminate. Defined.

(** C1: the range token [1-5] is well formed and renders; the range token
    [a-b] holds a sub-token that is no integer and raises. *)
Lemma parse_field_returns_phrase_witness :
  (has_form Range "1-5"
   /\ exists phrase, _parse_field 4300 "1-5" "minuto" None = Ok phrase)
  /\ (has_form Range "a-b"
      /\ exists w, _parse_field 4300 "a-b" "minuto" None = Raise (ValueError w)).
Proof.
  split.
  - split; [split; reflexivity|].
    apply (proj1 (parse_field_returns_phrase 4300 "1-5" "minuto" None)).
    do 4 right. left. split; [split; reflexivity|].
    exists 1, 5. split; [reflexivity|]. intros names H. discriminate H.
  - split; [split; reflexivity|].
    apply (proj1 (proj2 (parse_field_returns_phrase 4300 "a-b" "minuto" None))).
    + split; reflexivity.
    + apply Exists_cons_hd. eexists. reflexivity.
Defined.

(** C1 fails as stated: [_parse_field] raises [ValueError] on the range
    tokens [a-b] and [1-5/2] and on the weekday list [lun,mie], whose
    sub-tokens are not integers. *)
Lemma parse_field_raises :
  _parse_field 4300 "a-b" "minuto" None = Raise (ValueError (int_conversion "a"))
  /\ (forall phrase, _parse_field 4300 "a-b" "minuto" None <> Ok phrase)
  /\ _parse_field 4300 "1-5/2" (py "día del mes") None
     = Raise (ValueError (int_conversion "5/2"))
  /\ _parse_field 4300 "lun,mie" (py "día") (Some _DAY_NAMES)
     = Raise (ValueError (int_conversion "lun")).
Proof.
  repeat split; try (vm_compute; reflexivity).
  intros phrase H. vm_compute in H. discriminate H.
Qed.

(** C2: six columns pass the stand-in validator and fail on the format. *)
Lemma wrong_field_count_fails_witness :
  columns_croniter "* * * * * *" None = Ok 0
  /\ length (split_whitespace "* * * * * *") <> 5%nat
  /\ translate 4300 columns_croniter "* * * * * *" = Raise invalid_format.
Proof.
  split; [reflexivity|]. split; [discriminate|].
  apply (proj1 (wrong_field_count_fails 4300 Z Z columns_croniter "* * * * * *")
           0 eq_refl).
  discriminate.
Defined.

(** C2 fails as stated: ["* * * *"] does not split into five fields, and with
    a validator that rejects it, as one that counts columns does, [translate]
    fails with the syntax error, not with the format error. *)
Lemma four_fields_fail_on_syntax :
  length (split_whitespace "* * * *") <> 5%nat
  /\ translate 4300 columns_croniter "* * * *"
     = Raise (invalid_expression "* * * *")
  /\ translate 4300 columns_croniter "* * * *" <> Raise invalid_format.
Proof.
  split; [discriminate|]. split; [vm_compute; reflexivity|].
  intros H. vm_compute in H. discriminate H.
Qed.

(** C3: [1,7,9] on the weekday field keeps index 1 and drops 7 and 9. *)
Lemma list_renders_names_witness :
  has_form List "1,7,9"
  /\ Forall2 (fun v i => int 4300 v = Ok i /\ 0 <= i) (split "," "1,7,9") [1; 7; 9]
  /\ _parse_field 4300 "1,7,9" (py "día") (Some _DAY_NAMES) = Ok "los lunes".
Proof.
  assert (H : Forall2 (fun v i => int 4300 v = Ok i /\ 0 <= i)
                (split "," "1,7,9") [1; 7; 9]).
  { repeat constructor; discriminate. }
  split; [reflexivity|]. split; [exact H|].
  exact (proj1 (list_renders_names 4300) "1,7,9" (py "día") _DAY_NAMES [1; 7; 9]
           day_names_not_nil eq_refl H).
Defined.

(** C3 fails as stated: in [1,x] the index 1 is inside the table, yet the
    renderer raises and nothing is rendered; the index -8 of [0,-8] is
    outside the table and raises [IndexError]; the index -1 of [0,-1] is
    outside the table and is rendered, as the last name. *)
Lemma list_indices_not_all_guarded :
  _parse_field 4300 "1,x" (py "día") (Some _DAY_NAMES)
  = Raise (ValueError (int_conversion "x"))
  /\ _parse_field 4300 "0,-8" (py "día") (Some _DAY_NAMES) = Raise IndexError
  /\ _parse_field 4300 "0,-1" (py "día") (Some _DAY_NAMES)
     = Ok (py "los domingo, sábado").
Proof.
  repeat split; vm_compute; reflexivity.
Qed.

(** C4: the month token [1-5], and [1-12], whose end is outside the table. *)
Lemma range_renders_names_witness :
  _parse_field 4300 "1-5" "mes" (Some _MONTH_NAMES) = Ok "de febrero a junio"
  /\ _parse_field 4300 "1-12" "mes" (Some _MONTH_NAMES) = Raise IndexError.
Proof.
  split.
  - exact (proj1 (proj1 (range_renders_names 4300) "1-5" "mes" "1" "5"
                    _MONTH_NAMES 1 5 month_names_not_nil
                    eq_refl eq_refl eq_refl eq_refl)).
  - apply (proj2 (proj1 (range_renders_names 4300) "1-12" "mes" "1" "12"
                    _MONTH_NAMES 1 12 month_names_not_nil
                    eq_refl eq_refl eq_refl eq_refl)).
    right. right. left. discriminate.
Defined.

(** C5: with the stand-in validator. *)
Lemma translate_30_3_15_witness :
  columns_croniter "30 3 15 * *" None = Ok 0
  /\ translate 4300 columns_croniter "30 3 15 * *"
     = Ok (py "30 3 15 cada mes cada día").
Proof.
  split; [reflexivity|].
  apply (translate_30_3_15 4300 Z Z columns_croniter 0 eq_refl).
Defined.

(** C6: [*/5] on the minute field. *)
Lemma step_renders_interval_witness :
  contains "," "5" = false /\ contains "-" "5" = false /\ contains "/" "5" = false
  /\ _parse_field 4300 "*/5" "minuto" None = Ok "cada 5 minutos".
Proof.
  refine (conj eq_refl (conj eq_refl (conj eq_refl _))).
  exact (step_renders_interval 4300 "*" "5" "minuto" None
           eq_refl eq_refl eq_refl eq_refl eq_refl eq_refl).
Defined.

(** C7: [1,3-5/2] holds all three separators and is rendered as a List. *)
Lemma parse_field_dispatch_witness :
  has_form List "1,3-5/2"
  /\ _parse_field 4300 "1,3-5/2" "minuto" None
     = render 4300 List "1,3-5/2" "minuto" None.
Proof.
  split; [reflexivity|].
  exact (proj1 (proj2 (parse_field_dispatch 4300 "1,3-5/2" "minuto" None))
           eq_refl).
Defined.

(** C8: five wildcards, with tabs and runs of spaces between them. *)
Lemma translate_all_wildcards_witness :
  columns_croniter "*  * * *	*" None = Ok 0
  /\ split_whitespace "*  * * *	*" = ["*"; "*"; "*"; "*"; "*"]%string
  /\ translate 4300 columns_croniter "*  * * *	*"
     = Ok (py "cada minuto cada hora cada día del mes cada mes cada día").
Proof.
  split; [reflexivity|]. split; [reflexivity|].
  exact (translate_all_wildcards 4300 Z Z columns_croniter "*  * * *	*" 0
           eq_refl eq_refl).
Defined.

(** C9: the stand-in collaborator rejects four columns, and the result is
    the empty list with one log record; it accepts five, and the result is
    the three fire times asked for. *)
Lemma get_next_executions_never_raises_witness :
  (columns_croniter "* * * *" (Some 0)
   = Raise (ValueError (message "bad cron expression"))
   /\ get_next_executions columns_croniter columns_get_next "* * * *" 5 0 []
      = (Ok [], [log_error (ValueError (message "bad cron expression"))]))
  /\ get_next_executions columns_croniter columns_get_next "*/5 * * * *" 3 0 []
     = (Ok [1; 2; 3], []).
Proof.
  split; [split; [reflexivity|]|].
  - exact (proj1 (proj2 (get_next_executions_never_raises Z Z columns_croniter
                           columns_get_next "* * * *" 5 0 []))
             _ eq_refl).
  - exact (proj2 (proj2 (proj2 (get_next_executions_never_raises Z Z
                                  columns_croniter columns_get_next
                                  "*/5 * * * *" 3 0 [])))
             _ eq_refl).
Defined.

(** C10: the month token [*/2], with and without the month table, and the
    expression ["0 0 */2 */2 *"]. *)
Lemma step_never_consults_names_witness :
  has_form Step "*/2"
  /\ _parse_field 4300 "*/2" "mes" (Some _MONTH_NAMES)
     = _parse_field 4300 "*/2" "mes" None
  /\ translate 4300 columns_croniter "0 0 */2 */2 *"
     = Ok (py "0 0 cada 2 día del mess cada 2 mess cada día").
Proof.
  assert (H : has_form Step "*/2") by (repeat split).
  split; [exact H|]. split.
  - exact (proj1 (step_never_consults_names 4300) "*/2" "mes"
             (Some _MONTH_NAMES) H).
  - exact (proj2 (proj2 (proj2 (step_never_consults_names 4300)))
             Z Z columns_croniter 0 eq_refl).
Defined.

(** The five expressions of the demonstration driver. *)
Example driver_expressions :
  map (translate 4300 columns_croniter)
    ["*/5 * * * *"; "0 2 * * 1-5"; "0 0 1 */2 *"; "30 3 15 * *"; "0 12 * * 1,3,5"]
  = map (fun phrase => Ok (py phrase))
      ["cada 5 minutos cada hora cada día del mes cada mes cada día";
       "0 2 cada día del mes cada mes de lunes a viernes";
       "0 0 1 cada 2 mess cada día";
       "30 3 15 cada mes cada día";
       "0 12 cada día del mes cada mes los lunes, miércoles, viernes"]%string.
Proof. vm_compute. reflexivity. Qed.

(** * Further properties of the translator *)

(** ** Splitting *)

Lemma split_length_pos (c : ascii) (s : string) : (1 <= length (split c s))%nat.
Proof.
  destruct s as [|d s]; simpl; [lia|].
  destruct (Ascii.eqb d c); simpl; [lia|].
  destruct (split c s); simpl; lia.
Qed.

Lemma split_length_contains (c : ascii) (s : string) :
  contains c s = true -> (2 <= length (split c s))%nat.
Proof.
  induction s as [|d s IH]; simpl; [discriminate|].
  destruct (Ascii.eqb d c); simpl.
  - intros _. pose proof (split_length_pos c s). lia.
  - intros H. specialize (IH H).
    destruct (split c s); simpl in *; lia.
Qed.

Lemma split_pieces_without (c : ascii) (s : string) :
  Forall (fun piece => contains c piece = false) (split c s).
Proof.
  induction s as [|d s IH]; simpl.
  - constructor; [reflexivity|constructor].
  - destruct (Ascii.eqb d c) eqn:E.
    + constructor; [reflexivity|exact IH].
    + destruct (split c s) as [|piece pieces].
      * constructor; [simpl; rewrite E; reflexivity|constructor].
      * inversion IH as [|? ? Hp Hps]; subst.
        constructor; [simpl; rewrite E, Hp; reflexivity|exact Hps].
Qed.

(** ** The sign of what [int] reads *)

Lemma space_to_ascii_minus (c : ascii) :
  Ascii.eqb (space_to_ascii c) "-" = Ascii.eqb c "-".
Proof.
  destruct c as [[] [] [] [] [] [] [] []]; reflexivity.
Qed.

Lemma contains_minus_transform (s : string) :
  contains "-" (transform_space s) = contains "-" s.
Proof.
  induction s as [|c s IH]; simpl; [reflexivity|].
  rewrite space_to_ascii_minus, IH. reflexivity.
Qed.

Lemma contains_skip_spaces (c : ascii) (s : string) :
  contains c s = false -> contains c (skip_spaces s) = false.
Proof.
  induction s as [|d s IH]; simpl; [reflexivity|].
  intros H. apply orb_false_iff in H. destruct H as [Hd Hs].
  destruct (Py_ISSPACE d); [exact (IH Hs)|].
  simpl. rewrite Hd, Hs. reflexivity.
Qed.

Lemma split_sign_without_minus (s : string) :
  contains "-" s = false -> fst (split_sign s) = 1.
Proof.
  destruct s as [|c s]; [reflexivity|].
  destruct c as [[] [] [] [] [] [] [] []]; simpl; try reflexivity.
  discriminate.
Qed.

Lemma scan_digits_nonneg (s : string) :
  forall (after_underscore : bool) (acc : Z) (n : nat) v m rest,
    0 <= acc ->
    scan_digits s after_underscore acc n = Some (v, m, rest) -> 0 <= v.
Proof.
  induction s as [|c s IH]; intros b acc n v m rest Hacc H;
    cbn [scan_digits] in H.
  - destruct b; [discriminate|]. injection H as <- _ _. exact Hacc.
  - destruct (is_digit c).
    + eapply IH; [|exact H]. unfold digit_value. lia.
    + destruct (Ascii.eqb c "_").
      * destruct b; [discriminate|]. exact (IH _ _ _ _ _ _ Hacc H).
      * destruct b; [discriminate|]. injection H as <- _ _. exact Hacc.
Qed.

Lemma int_ok_inv (lim : nat) (v : string) (i : Z) :
  Py.int lim v = Ok i ->
  exists x n rest,
    scan_digits (snd (split_sign (skip_spaces (transform_space v)))) false 0 0
    = Some (x, n, rest)
    /\ i = fst (split_sign (skip_spaces (transform_space v))) * x.
Proof.
  unfold Py.int.
  destruct (split_sign _) as [sign body]. simpl.
  destruct body as [|c body'].
  - destruct (scan_digits _ _ _ _) as [[[x n] rest]|]; [|discriminate].
    destruct (_ || _); [discriminate|].
    intros H. injection H as <-. eauto.
  - destruct c as [[] [] [] [] [] [] [] []];
      try discriminate;
      (destruct (scan_digits _ _ _ _) as [[[x n] rest]|]; [|discriminate];
       destruct (_ || _); [discriminate|];
       intros H; injection H as <-; eauto).
Qed.

(** A text without a [-] never reads as a negative integer. *)
Lemma int_nonneg (lim : nat) (v : string) (i : Z) :
  contains "-" v = false -> Py.int lim v = Ok i -> 0 <= i.
Proof.
  intros Hv H. destruct (int_ok_inv _ _ _ H) as (x & n & rest & Hscan & ->).
  rewrite split_sign_without_minus.
  - pose proof (scan_digits_nonneg _ _ _ _ _ _ _ (Z.le_refl 0) Hscan). lia.
  - apply contains_skip_spaces. rewrite contains_minus_transform. exact Hv.
Qed.

(** ** Indexing from the end *)

Lemma getitem_from_end {A : Type} (l : list A) (i : Z) (d : A) :
  - len l <= i < 0 -> getitem l i = Ok (nth (Z.to_nat (i + len l)) l d).
Proof.
  intros [Hlo Hhi]. unfold getitem.
  destruct (Z.ltb_spec i 0) as [_|]; [|lia].
  destruct (Z.ltb_spec (i + len l) 0) as [|_]; [lia|].
  destruct (nth_error l (Z.to_nat (i + len l))) as [a|] eqn:E.
  - rewrite (nth_error_nth _ _ d E). reflexivity.
  - apply nth_error_None in E. unfold len in *. lia.
Qed.

(** ** Joining what was split *)

Lemma join_cons (sep p : string) (rest : list string) :
  rest <> [] -> join sep (p :: rest) = p ++ sep ++ join sep rest.
Proof.
  destruct rest; [contradiction|reflexivity].
Qed.

Lemma join_split (c : ascii) (s : string) :
  join (String c EmptyString) (split c s) = s.
Proof.
  induction s as [|d s IH]; [reflexivity|].
  cbn [split].
  assert (Hne : split c s <> []).
  { pose proof (split_length_pos c s) as Hlen.
    destruct (split c s); [simpl in Hlen; lia|discriminate]. }
  destruct (Ascii.eqb_spec d c) as [->|Hd].
  - rewrite (join_cons _ _ _ Hne), IH. reflexivity.
  - destruct (split c s) as [|piece pieces]; [contradiction|].
    destruct pieces as [|piece' pieces'].
    + simpl in *. rewrite IH. reflexivity.
    + rewrite join_cons in * by discriminate. rewrite <- IH. reflexivity.
Qed.

Section FieldProperties.

Variable int_max_str_digits : nat.

#[local] Arguments Py.int : simpl never.
#[local] Arguments Py.getitem : simpl never.

Local Abbreviation int := (Py.int int_max_str_digits).
Local Abbreviation _parse_field := (_parse_field int_max_str_digits).
Local Abbreviation nombres := (nombres int_max_str_digits).

(** ** Unpacking the two bounds of a range *)

Lemma two_ints_inv (parts : list string) (a b : Z) :
  map int parts = [Ok a; Ok b] ->
  exists sa sb, parts = [sa; sb] /\ int sa = Ok a /\ int sb = Ok b.
Proof.
  destruct parts as [|sa [|sb [|sc rest]]]; simpl; intros H; try discriminate.
  injection H as Ha Hb. exists sa, sb. auto.
Qed.

Lemma unpack2_int_ok_inv (parts : list string) (a b : Z) :
  unpack2 (map int parts) = Ok (a, b) -> map int parts = [Ok a; Ok b].
Proof.
  destruct parts as [|sa [|sb [|sc rest]]]; simpl; try discriminate.
  - destruct (int sa); discriminate.
  - destruct (int sa) as [x|]; simpl; [|discriminate].
    destruct (int sb) as [y|]; simpl; [|discriminate].
    intros H. injection H as <- <-. reflexivity.
  - destruct (int sa) as [x|]; simpl; [|discriminate].
    destruct (int sb) as [y|]; simpl; [|discriminate].
    destruct (int sc); discriminate.
Qed.

Lemma unpack2_int_errors (parts : list string) (e : exception) :
  (2 <= length parts)%nat -> unpack2 (map int parts) = Raise e ->
  (exists s, e = ValueError (int_conversion s))
  \/ e = ValueError (unpack_too_many 2).
Proof.
  intros Hlen.
  destruct parts as [|sa [|sb [|sc rest]]]; simpl in *; try lia.
  - destruct (int_result int_max_str_digits sa) as [[x Hx]|Hx]; rewrite Hx; simpl;
      [|intros H; injection H as <-; left; eauto].
    destruct (int_result int_max_str_digits sb) as [[y Hy]|Hy]; rewrite Hy; simpl;
      [discriminate|intros H; injection H as <-; left; eauto].
  - destruct (int_result int_max_str_digits sa) as [[x Hx]|Hx]; rewrite Hx; simpl;
      [|intros H; injection H as <-; left; eauto].
    destruct (int_result int_max_str_digits sb) as [[y Hy]|Hy]; rewrite Hy; simpl;
      [|intros H; injection H as <-; left; eauto].
    destruct (int_result int_max_str_digits sc) as [[z Hz]|Hz]; rewrite Hz; simpl;
      intros H; injection H as <-; [right; reflexivity|left; eauto].
Qed.

(** The two bounds of a Range token are never negative: their texts hold
    no [-]. *)
Lemma range_bounds_nonneg (value : string) (a b : Z) :
  map int (split "-" value) = [Ok a; Ok b] -> 0 <= a /\ 0 <= b.
Proof.
  intros H. destruct (two_ints_inv _ _ _ H) as (sa & sb & Hs & Ha & Hb).
  pose proof (split_pieces_without "-" value) as Hp. rewrite Hs in Hp.
  inversion Hp as [|? ? Hsa Hp']; subst. inversion Hp' as [|? ? Hsb _]; subst.
  split; [exact (int_nonneg _ _ _ Hsa Ha)|exact (int_nonneg _ _ _ Hsb Hb)].
Qed.

(** ** The generator of the list branch, on any integers *)

Lemma nombres_python_index (names valores : list string) (idxs : list Z) :
  Forall2 (fun v i => int v = Ok i /\ - len names <= i) valores idxs ->
  nombres names valores
  = Ok (map (fun i => nth (Z.to_nat (if i <? 0 then i + len names else i))
                        names EmptyString)
          (filter (fun i => i <? len names) idxs)).
Proof.
  induction 1 as [|v i valores idxs [Hv Hi] _ IH]; simpl; [reflexivity|].
  rewrite Hv. simpl.
  destruct (Z.ltb_spec i (len names)) as [Hlt|Hge]; [|exact IH].
  simpl. destruct (Z.ltb_spec i 0) as [Hneg|Hpos].
  - rewrite (getitem_from_end names i EmptyString) by lia. simpl.
    rewrite IH. reflexivity.
  - rewrite (getitem_in_range names i EmptyString) by lia. simpl.
    rewrite IH. reflexivity.
Qed.

Lemma nombres_index_error (names valores : list string) (idxs : list Z) :
  Forall2 (fun v i => int v = Ok i) valores idxs ->
  Exists (fun i => i < - len names) idxs ->
  nombres names valores = Raise IndexError.
Proof.
  induction 1 as [|v i valores idxs Hv _ IH]; intros Hex; [inversion Hex|].
  simpl. rewrite Hv. simpl.
  assert (Hlen : 0 <= len names) by (unfold len; lia).
  destruct (Z.ltb_spec i (- len names)) as [Hlow|Hok].
  - destruct (Z.ltb_spec i (len names)) as [_|]; [|lia].
    simpl. rewrite getitem_out_of_range by (right; exact Hlow). reflexivity.
  - assert (Hrest : Exists (fun i => i < - len names) idxs).
    { inversion Hex; subst; [lia|assumption]. }
    specialize (IH Hrest).
    destruct (Z.ltb_spec i (len names)) as [Hlt|_]; [|exact IH].
    simpl. destruct (getitem_total names i) as [[x Hx]|Hx]; rewrite Hx; simpl;
      [|reflexivity].
    rewrite IH. reflexivity.
Qed.

Lemma nombres_errors (names valores : list string) (e : exception) :
  nombres names valores = Raise e ->
  (exists s, e = ValueError (int_conversion s)) \/ e = IndexError.
Proof.
  induction valores as [|v valores IH]; simpl; [discriminate|].
  destruct (int_result int_max_str_digits v) as [[i Hi]|Hi]; rewrite Hi; simpl;
    [|intros H; injection H as <-; left; eauto].
  destruct (i <? len names); [|exact IH].
  simpl. destruct (getitem_total names i) as [[x Hx]|Hx]; rewrite Hx; simpl;
    [|intros H; injection H as <-; right; reflexivity].
  destruct (nombres names valores) as [l|e'] eqn:Hn; simpl; [discriminate|].
  intros H. injection H as <-. apply IH. reflexivity.
Qed.

Lemma filter_none (names : list string) (idxs : list Z) :
  Forall (fun i => len names <= i) idxs ->
  filter (fun i => i <? len names) idxs = [].
Proof.
  induction 1 as [|i idxs Hi _ IH]; simpl; [reflexivity|].
  destruct (Z.ltb_spec i (len names)); [lia|exact IH].
Qed.

(** ** Rendering, branch by branch *)

(** X1. List branch without a name table (none given, or an empty one):
    the sub-tokens are never read as integers, so the branch cannot fail,
    and they are shown as written: the phrase is the noun, ["s: "], and the
    token with [", "] in place of each [,]. *)
Theorem list_without_table_keeps_subtokens
    (value type_name : string) names_list :
  has_form List value -> truthy names_list = false ->
  _parse_field value type_name names_list
  = Ok (type_name ++ "s: " ++ join ", " (split "," value))
  /\ join "," (split "," value) = value.
Proof.
  intros Hc Hn. split; [|apply join_split].
  rewrite (parse_field_list _ _ _ _ Hc). unfold CronTranslator.parse_conjunto.
  destruct names_list as [[|n0 names']|]; simpl in Hn; try discriminate;
    reflexivity.
Qed.

(** X2. List branch with a name table: an index is only compared with the
    length of the table, so a negative one is not dropped.  From minus the
    length on it selects a name counted from the end of the table; below
    that it raises [IndexError]. *)
Theorem list_negative_index_counts_from_end
    (value type_name : string) (names : list string) (idxs : list Z) :
  has_form List value -> names <> [] ->
  Forall2 (fun v i => int v = Ok i) (split "," value) idxs ->
  (Forall (fun i => - len names <= i) idxs ->
   _parse_field value type_name (Some names)
   = Ok ("los " ++ join ", "
           (map (fun i => nth (Z.to_nat (if i <? 0 then i + len names else i))
                         names EmptyString)
              (filter (fun i => i <? len names) idxs))))
  /\ (Exists (fun i => i < - len names) idxs ->
      _parse_field value type_name (Some names) = Raise IndexError).
Proof.
  intros Hc Hn Hidx.
  rewrite (parse_field_list _ _ _ _ Hc). unfold CronTranslator.parse_conjunto.
  destruct names as [|n0 names']; [contradiction|].
  split.
  - intros Hall.
    assert (H : Forall2 (fun v i => int v = Ok i /\ - len (n0 :: names') <= i)
                  (split "," value) idxs).
    { clear Hc Hn. induction Hidx as [|v i vs js Hv _ IH]; [constructor|].
      inversion Hall; subst. constructor; [split; assumption|apply IH; assumption]. }
    rewrite (nombres_python_index _ _ _ H). reflexivity.
  - intros Hex. rewrite (nombres_index_error _ _ _ Hidx Hex). reflexivity.
Qed.

(** X3. List branch with a name table, every index at or beyond the length
    of the table: all are dropped and the phrase is ["los "] alone, with
    nothing after the space. *)
Theorem list_all_dropped (value type_name : string)
    (names : list string) (idxs : list Z) :
  has_form List value -> names <> [] ->
  Forall2 (fun v i => int v = Ok i /\ len names <= i) (split "," value) idxs ->
  _parse_field value type_name (Some names) = Ok "los ".
Proof.
  intros Hc Hn Hidx.
  rewrite (parse_field_list _ _ _ _ Hc). unfold CronTranslator.parse_conjunto.
  destruct names as [|n0 names']; [contradiction|].
  assert (Hlen : 0 <= len (n0 :: names')) by (unfold len; lia).
  assert (H : Forall2 (fun v i => int v = Ok i /\ 0 <= i) (split "," value) idxs).
  { eapply Forall2_impl; [|exact Hidx]. simpl. intros v i [Hv Hi]. split; [exact Hv|lia]. }
  assert (Hall : Forall (fun i => len (n0 :: names') <= i) idxs).
  { clear H Hc Hn. induction Hidx as [|v i vs js [_ Hi] _ IH]; constructor; assumption. }
  rewrite (nombres_names _ _ _ _ H), (filter_none _ _ Hall). reflexivity.
Qed.

(** X4. Range branch without a name table: it returns a phrase exactly when
    the token splits on [-] into two texts that both read as integers.  The
    phrase then shows the two integers as [str] writes them, not the texts,
    and neither is negative. *)
Theorem range_without_table (value type_name : string) names_list :
  has_form Range value -> truthy names_list = false ->
  (forall a b, map int (split "-" value) = [Ok a; Ok b] ->
     0 <= a /\ 0 <= b
     /\ _parse_field value type_name names_list
        = Ok (type_name ++ "s del " ++ str a ++ " al " ++ str b))
  /\ (forall phrase, _parse_field value type_name names_list = Ok phrase ->
        exists a b, map int (split "-" value) = [Ok a; Ok b]).
Proof.
  intros [Hc Hr] Hn.
  rewrite (parse_field_range _ _ _ _ Hc Hr). unfold CronTranslator.parse_rango.
  split.
  - intros a b Hab. destruct (range_bounds_nonneg _ _ _ Hab) as [Ha Hb].
    split; [exact Ha|]. split; [exact Hb|].
    rewrite Hab. simpl.
    destruct names_list as [[|n0 names']|]; simpl in Hn; try discriminate;
      reflexivity.
  - intros phrase H.
    destruct (unpack2 _) as [[a b]|e] eqn:Hu; simpl in H; [|discriminate].
    exists a, b. apply unpack2_int_ok_inv. exact Hu.
Qed.

(** X5. Range branch with a name table: the two bounds are never negative,
    so the table is never indexed from its end; the phrase is returned
    exactly when both bounds are below the length of the table, and
    [IndexError] is raised otherwise. *)
Theorem range_with_table_bounds (value type_name : string)
    (names : list string) (a b : Z) :
  has_form Range value -> names <> [] ->
  map int (split "-" value) = [Ok a; Ok b] ->
  0 <= a /\ 0 <= b
  /\ (a < len names -> b < len names ->
      _parse_field value type_name (Some names)
      = Ok ("de " ++ nth (Z.to_nat a) names EmptyString
              ++ " a " ++ nth (Z.to_nat b) names EmptyString))
  /\ (len names <= a \/ len names <= b ->
      _parse_field value type_name (Some names) = Raise IndexError).
Proof.
  intros [Hc Hr] Hn Hab.
  destruct (range_bounds_nonneg _ _ _ Hab) as [Ha Hb].
  split; [exact Ha|]. split; [exact Hb|].
  rewrite (parse_field_range _ _ _ _ Hc Hr). unfold CronTranslator.parse_rango.
  rewrite Hab. simpl.
  destruct names as [|n0 names']; [contradiction|].
  split.
  - intros Hla Hlb.
    rewrite (getitem_in_range _ a EmptyString) by lia. simpl.
    rewrite (getitem_in_range _ b EmptyString) by lia. reflexivity.
  - intros [H|H].
    + rewrite getitem_out_of_range by (left; exact H). reflexivity.
    + destruct (getitem_total (n0 :: names') a) as [[x Hx]|Hx]; rewrite Hx; simpl;
        [|reflexivity].
      rewrite getitem_out_of_range by (left; exact H). reflexivity.
Qed.

(** X6. Step branch: with one [/] the phrase is built from the text after
    it; with more than one the unpacking of the split raises [ValueError]
    (too many values), whatever the texts are. *)
Theorem step_needs_one_slash (value type_name : string) names_list :
  has_form Step value ->
  (forall base interval, split "/" value = [base; interval] ->
     _parse_field value type_name names_list
     = Ok ("cada " ++ interval ++ " " ++ type_name ++ "s"))
  /\ ((2 < length (split "/" value))%nat ->
      _parse_field value type_name names_list
      = Raise (ValueError (unpack_too_many 2)))
  /\ (2 <= length (split "/" value))%nat.
Proof.
  intros (Hc & Hr & Hs).
  rewrite (parse_field_step _ _ _ _ Hc Hr Hs). unfold parse_intervalo.
  pose proof (split_length_contains _ _ Hs) as Hlen.
  split; [|split; [|exact Hlen]].
  - intros base interval ->. reflexivity.
  - intros H. destruct (split "/" value) as [|p [|q [|r rest]]]; simpl in H;
      try lia.
    reflexivity.
Qed.

(** X7. What [_parse_field] can raise: a [ValueError] of [int] on a
    sub-token, the [ValueError] of an unpacking that finds too many values,
    or [IndexError], and [IndexError] only when a non-empty name table was
    given.  It never finds too few values to unpack. *)
Theorem parse_field_error_classes (value type_name : string) names_list
    (e : exception) :
  _parse_field value type_name names_list = Raise e ->
  (exists s, e = ValueError (int_conversion s))
  \/ e = ValueError (unpack_too_many 2)
  \/ (e = IndexError /\ truthy names_list = true).
Proof.
  unfold CronTranslator._parse_field.
  destruct (String.eqb value "*"); [discriminate|].
  destruct (contains "," value) eqn:Hc.
  { unfold CronTranslator.parse_conjunto.
    destruct names_list as [[|n0 names']|]; try discriminate.
    destruct (CronTranslator.nombres _ _ _) as [l|e'] eqn:Hn; simpl;
      [discriminate|].
    intros H. injection H as <-.
    destruct (nombres_errors _ _ _ Hn) as [Hs| ->]; [left; exact Hs|].
    right. right. split; reflexivity. }
  destruct (contains "-" value) eqn:Hr.
  { unfold CronTranslator.parse_rango.
    destruct (unpack2 _) as [[a b]|e'] eqn:Hu; simpl.
    - destruct names_list as [[|n0 names']|]; try discriminate.
      destruct (getitem_total (n0 :: names') a) as [[x Hx]|Hx]; rewrite Hx; simpl;
        [|intros H; injection H as <-; right; right; split; reflexivity].
      destruct (getitem_total (n0 :: names') b) as [[y Hy]|Hy]; rewrite Hy; simpl;
        [discriminate|intros H; injection H as <-; right; right; split; reflexivity].
    - intros H. injection H as <-.
      pose proof (split_length_contains _ _ Hr) as Hlen.
      destruct (unpack2_int_errors _ _ Hlen Hu) as [Hs| ->];
        [left; exact Hs|right; left; reflexivity]. }
  destruct (contains "/" value) eqn:Hs; [|discriminate].
  unfold parse_intervalo.
  pose proof (split_length_contains _ _ Hs) as Hlen.
  destruct (split "/" value) as [|p [|q [|r rest]]]; simpl in *; try lia;
    [discriminate|].
  intros H. injection H as <-. right. left. reflexivity.
Qed.

End FieldProperties.

Section TranslatorFurtherProperties.

Variable int_max_str_digits : nat.
Variable datetime : Type.
Variable croniter : Type.
Variable croniter_new : string -> option datetime -> result croniter.
Variable get_next : croniter -> result (datetime * croniter).

Local Abbreviation _parse_field := (_parse_field int_max_str_digits).
Local Abbreviation translate := (translate int_max_str_digits croniter_new).
Local Abbreviation get_next_executions :=
  (get_next_executions croniter_new get_next).

(** ** [translate] *)

(** X8. The validator turns only [ValueError] and [TypeError] into a
    verdict.  Any other exception of the [croniter] constructor leaves
    [_validate_cron_expression], and then [translate], as it was raised. *)
Theorem other_collaborator_errors_escape (cron_expression : string)
    (e : exception) :
  croniter_new cron_expression None = Raise e ->
  is_ValueError e || is_TypeError e = false ->
  _validate_cron_expression croniter_new cron_expression = Raise e
  /\ translate cron_expression = Raise e.
Proof.
  intros H He.
  unfold CronTranslator.translate, _validate_cron_expression.
  rewrite H. simpl. rewrite He. split; reflexivity.
Qed.

(** X9. When [translate] returns a phrase, the validator had accepted the
    expression, the expression has exactly five fields, each field rendered
    without error under its own noun (and table, for the month and the
    weekday), and the phrase is the five renderings in field order with one
    space between them. *)
Theorem translate_ok_inversion (cron_expression phrase : string) :
  translate cron_expression = Ok phrase ->
  exists cron minute hour day_of_month month day_of_week m h d mo w,
    croniter_new cron_expression None = Ok cron
    /\ split_whitespace cron_expression
       = [minute; hour; day_of_month; month; day_of_week]
    /\ _parse_field minute "minuto" None = Ok m
    /\ _parse_field hour "hora" None = Ok h
    /\ _parse_field day_of_month (py "día del mes") None = Ok d
    /\ _parse_field month "mes" (Some _MONTH_NAMES) = Ok mo
    /\ _parse_field day_of_week (py "día") (Some _DAY_NAMES) = Ok w
    /\ phrase = join " " [m; h; d; mo; w].
Proof.
  destruct (croniter_new cron_expression None) as [cron|e] eqn:Hc.
  - rewrite (translate_accepted _ _ _ _ _ _ Hc).
    destruct (split_whitespace cron_expression)
      as [|f1 [|f2 [|f3 [|f4 [|f5 [|f6 rest]]]]]]; try discriminate.
    cbn [unpack5 try_except bind].
    destruct (_parse_field f1 _ _) as [m|] eqn:H1; [|discriminate].
    destruct (_parse_field f2 _ _) as [h|] eqn:H2; [|discriminate].
    destruct (_parse_field f3 _ _) as [d|] eqn:H3; [|discriminate].
    destruct (_parse_field f4 _ _) as [mo|] eqn:H4; [|discriminate].
    destruct (_parse_field f5 _ _) as [w|] eqn:H5; [|discriminate].
    cbn [bind]. intros H. injection H as <-.
    exists cron, f1, f2, f3, f4, f5, m, h, d, mo, w. repeat split; assumption.
  - unfold CronTranslator.translate, _validate_cron_expression.
    rewrite Hc. simpl. destruct (_ || _); discriminate.
Qed.

(** X10. Between two expressions that the validator accepts, only the
    fields count: when they split on whitespace into the same fields,
    [translate] gives the same result, phrase or error, whatever the
    spaces, tabs or line ends around and between the fields. *)
Theorem translate_ignores_spacing (e1 e2 : string) (c1 c2 : croniter) :
  croniter_new e1 None = Ok c1 -> croniter_new e2 None = Ok c2 ->
  split_whitespace e1 = split_whitespace e2 ->
  translate e1 = translate e2.
Proof.
  intros H1 H2 Hs.
  rewrite (translate_accepted _ _ _ _ _ _ H1), (translate_accepted _ _ _ _ _ _ H2), Hs.
  reflexivity.
Qed.

(** X11. A field that is a plain value (no [*], [,], [-] or [/]) is copied
    as it stands, for the month and the weekday too: their name tables are
    not used.  An accepted expression of five plain values therefore
    translates to itself, with single spaces. *)
Theorem translate_plain_values (cron_expression : string) (cron : croniter)
    (fields : list string) :
  croniter_new cron_expression None = Ok cron ->
  split_whitespace cron_expression = fields ->
  length fields = 5%nat -> Forall (has_form Literal) fields ->
  translate cron_expression = Ok (join " " fields).
Proof.
  intros Hc Hs Hlen Hlit.
  rewrite (translate_accepted _ _ _ _ _ _ Hc), Hs.
  destruct fields as [|f1 [|f2 [|f3 [|f4 [|f5 [|f6 rest]]]]]]; try discriminate.
  repeat match goal with
         | H : Forall _ (_ :: _) |- _ =>
             let Hf := fresh "Hf" in
             inversion H as [|? ? Hf ?]; subst; clear H;
             destruct Hf as (? & ? & ? & ?)
         end.
  cbn [unpack5 try_except bind].
  rewrite !parse_field_literal by assumption.
  reflexivity.
Qed.

(** ** [get_next_executions] *)

Lemma next_times_length (n : nat) :
  forall (cron : croniter) (times : list datetime),
    next_times get_next n cron = Ok times -> length times = n.
Proof.
  induction n as [|n IH]; simpl; intros cron times H.
  - injection H as <-. reflexivity.
  - destruct (get_next cron) as [[t cron']|]; simpl in H; [|discriminate].
    destruct (next_times get_next n cron') as [ts|] eqn:E; simpl in H;
      [|discriminate].
    injection H as <-. simpl. rewrite (IH _ _ E). reflexivity.
Qed.

Lemma get_next_executions_cases (cron_expression : string) (count : Z)
    (base : datetime) (log : list log_record) :
  exists times log',
    get_next_executions cron_expression count base log = (Ok times, log')
    /\ ((log' = log /\ length times = Z.to_nat count)
        \/ (times = [] /\ exists e, log' = (log ++ [log_error e])%list)).
Proof.
  unfold CronTranslator.get_next_executions.
  destruct (croniter_new cron_expression (Some base)) as [cron|e]; simpl.
  - destruct (next_times get_next (Z.to_nat count) cron) as [times|e] eqn:E.
    + exists times, log. split; [reflexivity|]. left. split; [reflexivity|].
      exact (next_times_length _ _ _ E).
    + exists [], (log ++ [log_error e])%list. split; [reflexivity|].
      right. split; [reflexivity|]. exists e. reflexivity.
  - exists [], (log ++ [log_error e])%list. split; [reflexivity|].
    right. split; [reflexivity|]. exists e. reflexivity.
Qed.

(** X12. [get_next_executions] is all or nothing.  Either it returns
    exactly [count] fire times (none for a [count] below one) and logs
    nothing, or it returns the empty list and logs one error: fire times
    computed before a failing [get_next] call are dropped.  Earlier log
    records are kept. *)
Theorem get_next_executions_all_or_nothing (cron_expression : string)
    (count : Z) (base : datetime) (log : list log_record)
    (r : result (list datetime)) (log' : list log_record) :
  get_next_executions cron_expression count base log = (r, log') ->
  exists times,
    r = Ok times
    /\ ((log' = log /\ length times = Z.to_nat count)
        \/ (times = [] /\ exists e, log' = (log ++ [log_error e])%list)).
Proof.
  intros H.
  destruct (get_next_executions_cases cron_expression count base log)
    as (times & log0 & Heq & Hcases).
  rewrite Heq in H. injection H as <- <-.
  exists times. split; [reflexivity|exact Hcases].
Qed.

End TranslatorFurtherProperties.

Section CountBelowOne.

Variable datetime : Type.
Variable croniter : Type.
Variable croniter_new : string -> option datetime -> result croniter.

(** X13. With a [count] of zero or less and an expression that the
    constructor accepts, the result is the empty list and nothing is
    logged, whatever [get_next] would do: it is not called. *)
Theorem no_fire_times_asked (cron_expression : string) (count : Z)
    (base : datetime) (log : list log_record) (cron : croniter)
    (get_next : croniter -> result (datetime * croniter)) :
  count <= 0 ->
  croniter_new cron_expression (Some base) = Ok cron ->
  get_next_executions croniter_new get_next cron_expression count base log
  = (Ok [], log).
Proof.
  intros Hcount Hc. unfold get_next_executions. rewrite Hc. simpl.
  replace (Z.to_nat count) with 0%nat by lia. reflexivity.
Qed.

End CountBelowOne.

Section DriverProperties.

Variable int_max_str_digits : nat.
Variable datetime : Type.
Variable croniter : Type.
Variable croniter_new : string -> option datetime -> result croniter.
Variable get_next : croniter -> result (datetime * croniter).
Variable now : nat -> datetime.
Variable str_datetime : datetime -> string.
Variable str_exception : exception -> string.

Local Abbreviation one_turn :=
  (iteration int_max_str_digits croniter_new get_next str_datetime str_exception).
Local Abbreviation loop :=
  (for_expressions int_max_str_digits croniter_new get_next now str_datetime
     str_exception).
Local Abbreviation block_of :=
  (printed_for int_max_str_digits croniter_new str_datetime str_exception).

Lemma fold_left_print (f : datetime -> string) (times : list datetime) :
  forall w : world,
    fold_left (fun w' t => print (f t) w') times w
    = {| stdout := (stdout w ++ map f times)%list; logged := logged w |}.
Proof.
  induction times as [|t times IH]; intros w; simpl.
  - rewrite app_nil_r. destruct w; reflexivity.
  - rewrite IH. simpl. rewrite <- app_assoc. reflexivity.
Qed.

Lemma iteration_prints (expression : string) (base : datetime) (w : world) :
  exists block records,
    one_turn expression base w
    = (Ok tt, {| stdout := (stdout w ++ block)%list; logged := records |})
    /\ block_of expression block.
Proof.
  unfold iteration, try_body, printed_for.
  destruct (translate int_max_str_digits croniter_new expression)
    as [traduccion|e].
  - destruct (get_next_executions_cases _ _ croniter_new get_next expression 5
                base (logged w)) as (times & records & Hg & Hcases).
    cbn [print logged stdout]. rewrite Hg.
    rewrite fold_left_print. cbn [stdout logged].
    exists (header expression
            :: (py "Traducción:" ++ " " ++ traduccion)
            :: py "Próximas ejecuciones:"
            :: map (fun t => "  - " ++ str_datetime t) times), records.
    split.
    + repeat rewrite <- app_assoc. reflexivity.
    + right. exists traduccion, times. split; [reflexivity|]. split.
      * destruct Hcases as [[_ Hlen]|[Hnil _]]; [left; exact Hlen|right; exact Hnil].
      * reflexivity.
  - cbn [is_Exception]. unfold print. cbn [stdout logged].
    exists [header expression; error_line str_exception expression e], (logged w).
    split.
    + repeat rewrite <- app_assoc. reflexivity.
    + left. exists e. split; reflexivity.
Qed.


End DriverProperties.

(** * The further properties at concrete inputs *)

(** X1: [01,02] on the minute field keeps its leading zeros. *)
Lemma list_without_table_keeps_subtokens_witness :
  has_form List "01,02"
  /\ _parse_field 4300 "01,02" "minuto" None = Ok "minutos: 01, 02".
Proof.
  split; [reflexivity|].
  exact (proj1 (list_without_table_keeps_subtokens 4300 "01,02" "minuto" None
                  eq_refl eq_refl)).
Defined.

(** X2: [0,-1] on the weekday field ends with the last weekday, and [0,-8]
    raises. *)
Lemma list_negative_index_counts_from_end_witness :
  _parse_field 4300 "0,-1" (py "día") (Some _DAY_NAMES)
  = Ok (py "los domingo, sábado")
  /\ _parse_field 4300 "0,-8" (py "día") (Some _DAY_NAMES) = Raise IndexError.
Proof.
  split.
  - apply (proj1 (list_negative_index_counts_from_end 4300 "0,-1" (py "día")
                    _DAY_NAMES [0; -1] eq_refl day_names_not_nil
                    ltac:(repeat constructor))).
    repeat constructor; discriminate.
  - apply (proj2 (list_negative_index_counts_from_end 4300 "0,-8" (py "día")
                    _DAY_NAMES [0; -8] eq_refl day_names_not_nil
                    ltac:(repeat constructor))).
    apply Exists_cons_tl, Exists_cons_hd. reflexivity.
Defined.

(** X3: [7,8] on the weekday field. *)
Lemma list_all_dropped_witness :
  has_form List "7,8"
  /\ _parse_field 4300 "7,8" (py "día") (Some _DAY_NAMES) = Ok "los ".
Proof.
  split; [reflexivity|].
  apply (list_all_dropped 4300 "7,8" (py "día") _DAY_NAMES [7; 8]
           eq_refl day_names_not_nil).
  repeat constructor; discriminate.
Defined.

(** X4: [01-05] on the minute field loses its leading zeros. *)
Lemma range_without_table_witness :
  has_form Range "01-05"
  /\ _parse_field 4300 "01-05" "minuto" None = Ok "minutos del 1 al 5".
Proof.
  split; [split; reflexivity|].
  exact (proj2 (proj2 (proj1 (range_without_table 4300 "01-05" "minuto" None
                                (conj eq_refl eq_refl) eq_refl)
                         1 5 eq_refl))).
Defined.

(** X5: [1-5] and [5-7] on the weekday field. *)
Lemma range_with_table_bounds_witness :
  _parse_field 4300 "1-5" (py "día") (Some _DAY_NAMES) = Ok "de lunes a viernes"
  /\ _parse_field 4300 "5-7" (py "día") (Some _DAY_NAMES) = Raise IndexError.
Proof.
  split.
  - apply (proj1 (proj2 (proj2 (range_with_table_bounds 4300 "1-5" (py "día")
                                  _DAY_NAMES 1 5 (conj eq_refl eq_refl)
                                  day_names_not_nil eq_refl))));
      reflexivity.
  - apply (proj2 (proj2 (proj2 (range_with_table_bounds 4300 "5-7" (py "día")
                                  _DAY_NAMES 5 7 (conj eq_refl eq_refl)
                                  day_names_not_nil eq_refl)))).
    right. discriminate.
Defined.

(** X6: [10/5] and [1/2/3] on the minute field. *)
Lemma step_needs_one_slash_witness :
  _parse_field 4300 "10/5" "minuto" None = Ok "cada 5 minutos"
  /\ _parse_field 4300 "1/2/3" "minuto" None
     = Raise (ValueError (unpack_too_many 2)).
Proof.
  split.
  - exact (proj1 (step_needs_one_slash 4300 "10/5" "minuto" None
                    (conj eq_refl (conj eq_refl eq_refl)))
             "10" "5" eq_refl).
  - apply (proj1 (proj2 (step_needs_one_slash 4300 "1/2/3" "minuto" None
                           (conj eq_refl (conj eq_refl eq_refl))))).
    simpl. lia.
Defined.

(** X7: the error of [a-b]. *)
Lemma parse_field_error_classes_witness :
  _parse_field 4300 "a-b" "minuto" None = Raise (ValueError (int_conversion "a"))
  /\ ((exists s, ValueError (int_conversion "a") = ValueError (int_conversion s))
      \/ ValueError (int_conversion "a") = ValueError (unpack_too_many 2)
      \/ (ValueError (int_conversion "a") = IndexError
          /\ truthy (@None (list string)) = true)).
Proof.
  split; [reflexivity|].
  exact (parse_field_error_classes 4300 "a-b" "minuto" None _ eq_refl).
Defined.

(** X8: a constructor that raises a [KeyError]. *)
Lemma other_collaborator_errors_escape_witness :
  translate 4300
    (fun (_ : string) (_ : option Z) => @Raise Z (OtherException "KeyError"))
    "* * * * *"
  = Raise (OtherException "KeyError").
Proof.
  exact (proj2 (other_collaborator_errors_escape 4300 Z Z
                  (fun _ _ => Raise (OtherException "KeyError"))
                  "* * * * *" (OtherException "KeyError") eq_refl eq_refl)).
Defined.

(** X9: the second expression of the driver. *)
Lemma translate_ok_inversion_witness :
  translate 4300 columns_croniter "0 2 * * 1-5"
  = Ok (py "0 2 cada día del mes cada mes de lunes a viernes")
  /\ exists cron minute hour day_of_month month day_of_week m h d mo w,
       columns_croniter "0 2 * * 1-5" None = Ok cron
       /\ split_whitespace "0 2 * * 1-5"
          = [minute; hour; day_of_month; month; day_of_week]
       /\ _parse_field 4300 minute "minuto" None = Ok m
       /\ _parse_field 4300 hour "hora" None = Ok h
       /\ _parse_field 4300 day_of_month (py "día del mes") None = Ok d
       /\ _parse_field 4300 month "mes" (Some _MONTH_NAMES) = Ok mo
       /\ _parse_field 4300 day_of_week (py "día") (Some _DAY_NAMES) = Ok w
       /\ py "0 2 cada día del mes cada mes de lunes a viernes"
          = join " " [m; h; d; mo; w].
Proof.
  split; [reflexivity|].
  exact (translate_ok_inversion 4300 Z Z columns_croniter "0 2 * * 1-5" _ eq_refl).
Defined.

(** X10: the same five fields, spaced differently. *)
Lemma translate_ignores_spacing_witness :
  split_whitespace "0 2 * * 1-5" = split_whitespace "  0 2	*  * 1-5 "
  /\ translate 4300 columns_croniter "0 2 * * 1-5"
     = translate 4300 columns_croniter "  0 2	*  * 1-5 ".
Proof.
  split; [reflexivity|].
  exact (translate_ignores_spacing 4300 Z Z columns_croniter
           "0 2 * * 1-5" "  0 2	*  * 1-5 " 0 0 eq_refl eq_refl eq_refl).
Defined.

(** X11: month 1 and weekday 2 stay numbers. *)
Lemma translate_plain_values_witness :
  Forall (has_form Literal) ["30"; "3"; "15"; "1"; "2"]%string
  /\ translate 4300 columns_croniter "30 3 15 1 2" = Ok "30 3 15 1 2".
Proof.
  assert (H : Forall (has_form Literal) ["30"; "3"; "15"; "1"; "2"]%string).
  { repeat constructor; discriminate. }
  split; [exact H|].
  exact (translate_plain_values 4300 Z Z columns_croniter "30 3 15 1 2" 0 _
           eq_refl eq_refl eq_refl H).
Defined.

(** X12: three fire times asked of an iterator that fails at its third
    call: the two it gave are dropped. *)
Lemma get_next_executions_all_or_nothing_witness :
  get_next_executions columns_croniter
    (fun cron => if cron <? 2 then Ok (cron + 1, cron + 1) else Raise TypeError)
    "* * * * *" 3 0 []
  = (Ok [], [log_error TypeError])
  /\ exists times,
       @Ok (list Z) [] = Ok times
       /\ (([log_error TypeError] = [] /\ length times = Z.to_nat 3)
           \/ (times = []
               /\ exists e, [log_error TypeError] = ([] ++ [log_error e])%list)).
Proof.
  split; [reflexivity|].
  exact (get_next_executions_all_or_nothing Z Z columns_croniter
           (fun cron => if cron <? 2 then Ok (cron + 1, cron + 1)
                        else Raise TypeError)
           "* * * * *" 3 0 [] _ _ eq_refl).
Defined.

(** X13: minus three fire times asked, of an iterator that always fails. *)
Lemma no_fire_times_asked_witness :
  get_next_executions columns_croniter (fun _ : Z => @Raise (Z * Z) TypeError)
    "* * * * *" (-3) 0 []
  = (Ok [], []).
Proof.
  exact (no_fire_times_asked Z Z columns_croniter "* * * * *" (-3) 0 [] 0
           (fun _ => Raise TypeError) ltac:(discriminate) eq_refl).
Defined.
